(** * Model serving and optimisation notebook: a shallow embedding

    The notebook [model_serving/model-optimization.ipynb] is sequential glue
    around external tools: the TensorFlow file API, the SavedModel exporter,
    the freeze-graph utility, the graph-transform tool, a REST model server
    and the wall clock.  What the notebook's own code decides is WHICH calls
    are made, in which ORDER and with which ARGUMENTS, and how exceptions
    travel.  The embedding therefore runs every function of the notebook in a
    state-and-exception monad over a world made of a file system and the log
    of the external calls issued so far.  The answers of the external tools
    are not fixed: they are fields of a record [externals] over which every
    theorem quantifies.

    Conventions, all on the side of the external libraries:
    - a file-system key is a canonical path: two different keys are two
      different files (no symbolic links, no [.] or doubled separators);
      a statement that compares the paths of two files says so with
      [FS.canonical];
    - a JSON number is the value of the Python number [json] parsed it to:
      a float is exactly a binary64 value and an integer is unbounded;
      [numpy.argmax] is modelled on vectors whose scores are all exactly
      binary64 values, where every conversion numpy makes is exact, and is
      left to a parameter elsewhere; NaN and infinities are not JSON
      numbers here;
    - clock readings are exact rationals;
    - file names are the UTF-8 bytes of the Python [str]; what
      [str.isdigit] says of the characters outside ASCII is a parameter;
    - graph building inside the TensorFlow process (sessions, placeholders)
      leaves no entry in the log. *)

From Stdlib Require Import QArith Ascii String.
From stdpp Require Import gmap strings list fin_maps pretty.

Close Scope Q_scope.
Set Warnings "-register-all".
Open Scope string_scope.
Open Scope list_scope.

(** ** Python and library primitives used by the notebook *)

Module Py.

(** [s.endswith('/')] *)
Fixpoint endswith_sep (s : string) : bool :=
  match s with
  | EmptyString => false
  | String c EmptyString => bool_decide (c = "/"%char)
  | String _ s' => endswith_sep s'
  end.

(** [s.startswith('/')] *)
Definition startswith_sep (s : string) : bool :=
  match s with
  | String c _ => bool_decide (c = "/"%char)
  | EmptyString => false
  end.

(** [os.path.join(a, b)] of [posixpath], two components. *)
Definition os_path_join (a b : string) : string :=
  if startswith_sep b then b
  else if bool_decide (a = "") || endswith_sep a then a +:+ b
  else a +:+ "/" +:+ b.

(** [str(n)] for a Python [int]. *)
Definition str (n : Z) : string := pretty n.

(** [numpy.argmax] on a one-dimensional vector: a left-to-right scan that
    keeps the first position holding the largest value seen. *)
Fixpoint argmax_scan (best : Q) (besti : nat) (i : nat) (l : list Q) : nat :=
  match l with
  | [] => besti
  | x :: l' =>
      if Qle_bool x best then argmax_scan best besti (S i) l'
      else argmax_scan x i (S i) l'
  end.

Definition argmax_vector (l : list Q) : option nat :=
  match l with
  | [] => None
  | x :: l' => Some (argmax_scan x 0 1 l')
  end.

(** The odd part of a positive number and the exponent of two beside it. *)
Fixpoint pos_odd_part (p : positive) : positive :=
  match p with
  | xO p' => pos_odd_part p'
  | _ => p
  end.

Fixpoint pos_twos (p : positive) : Z :=
  match p with
  | xO p' => (1 + pos_twos p')%Z
  | _ => 0%Z
  end.

(** The rational is exactly a finite binary64 value: zero, or [m * 2^e]
    with [m] odd, [m < 2^53], [e >= -1074] and [m * 2^e < 2^1024]. *)
Definition float64_exact (q : Q) : bool :=
  let r := Qred q in
  match Qnum r with
  | Z0 => true
  | Zpos n | Zneg n =>
      let m := pos_odd_part n in
      let e := (pos_twos n - pos_twos (Qden r))%Z in
      Pos.eqb (pos_odd_part (Qden r)) 1
      && (Z.log2 (Zpos m) <? 53)%Z
      && (-1074 <=? e)%Z
      && (Z.log2 (Zpos m) + 1 + e <=? 1024)%Z
  end.

End Py.

(** ** Values exchanged with the outside *)

(** Parsed JSON, as Python's [json] module returns it; [JObj] lists the
    items of the resulting [dict]. *)
Inductive json : Type :=
| JNull
| JBool (b : bool)
| JNum (q : Q)
| JStr (s : string)
| JList (l : list json)
| JObj (items : list (string * json)).

(** One node of a [GraphDef]; the fields the notebook never inspects are
    kept as one opaque string. *)
Record node_def := NodeDef {
  node_name : string;
  node_op : string;
  node_rest : string
}.

(** [GraphDef.node] *)
Definition graph_def := list node_def.

(** A file-system entry. *)
Inductive fsnode :=
| File (content : string)
| Dir.

(** Which file operation raised [NotFoundError]. *)
Inductive fsop := OpDelete | OpRead.

(** Exceptions that reach the notebook. *)
Inductive exn :=
| NotFoundError (op : fsop) (path : string)
| HTTPError (status : Z)
| ConnectionError (msg : string)
| JSONDecodeError
| KeyError (key : string)
| TypeError (msg : string)
| ValueError (msg : string)
| IndexError (msg : string)
| ZeroDivisionError
| ToolError (tool : string) (msg : string).

Inductive result (A : Type) :=
| Ok (a : A)
| Raise (e : exn).
Arguments Ok {A} a.
Arguments Raise {A} e.

(** The keyword arguments of [freeze_graph.freeze_graph]. *)
Record freeze_args := FreezeArgs {
  input_saved_model_dir : string;
  output_graph : string;
  saved_model_tags : string;
  output_node_names : string;
  initializer_nodes : string;
  input_graph : option string;
  input_saver : bool;
  input_binary : bool;
  input_checkpoint : option string;
  restore_op_name : option string;
  filename_tensor_name : option string;
  clear_devices : bool;
  input_meta_graph : bool
}.

(** A value substituted for [{}] by [str.format]. *)
Inductive fmtarg :=
| FInt (n : Z)
| FSeconds (q : Q)
| FClass (c : nat)
| FClasses (cs : list nat).

(** An HTTP response as [requests] presents it: the status code and the
    result of [res.json()] ([None] when the body is not JSON). *)
Record response := Response {
  status_code : Z;
  body : option json
}.

(** The calls that leave the notebook's own code. *)
Inductive event :=
| EvExists (path : string)
| EvDeleteRecursively (path : string)
| EvExportSavedModel (export_dir_base : string)
| EvLs (path : string)
| EvMkdirP (path : string)
| EvCpR (src dst : string)
| EvPost (url : string) (payload : json)
| EvUtcNow (t : Q)
| EvPrint (fmt : string) (args : list fmtarg)
| EvFreezeGraph (args : freeze_args)
| EvGetGraphDefFromFile (path : string)
| EvDescribeGraph (g : graph_def)
| EvGetSize (path : string)
| EvTransformGraph (g : graph_def) (input_names output_names transforms : list string)
| EvWriteGraph (g : graph_def) (logdir : string) (as_text : bool) (name : string)
| EvSimpleSave (export_dir : string) (inputs outputs : gmap string string).

(** ** The world *)

Record world := World {
  fs : gmap string fsnode;
  log : list event
}.

(** A directory tree as an exporter produces it: relative path and entry. *)
Definition artifact := list (string * fsnode).

(** The answers of everything the notebook only calls.  Each answer may
    depend on the whole world at the time of the call. *)
Record externals := Externals {
  (** [lib.utils.get_graph_def_from_file], defined in the helper module
      [lib/utils.py] and not in the notebook: a parameter that, by its type,
      reads the file system and returns a graph or raises. *)
  ext_get_graph_def_from_file : gmap string fsnode -> string -> result graph_def;
  (** [lib.utils.describe_graph] and [lib.utils.get_size], of the same
      helper module: parameters that report and return or raise. *)
  ext_describe_graph : world -> graph_def -> result unit;
  ext_get_size : world -> string -> result unit;
  (** [estimator.export_savedmodel]: the time-stamped directory name and the
      tree written below it. *)
  ext_export_savedmodel : world -> string -> result (string * artifact);
  (** [freeze_graph.freeze_graph]: the serialised frozen graph. *)
  ext_freeze_graph : world -> freeze_args -> result string;
  (** [TransformGraph] *)
  ext_TransformGraph : world -> graph_def -> list string -> list string -> list string -> result graph_def;
  (** [GraphDef.SerializeToString] *)
  ext_serialize : graph_def -> string;
  (** [tf.import_graph_def] *)
  ext_import_graph_def : graph_def -> result unit;
  (** whether the imported graph has a tensor of that name *)
  ext_has_tensor : graph_def -> string -> bool;
  (** [tf.saved_model.simple_save]: the tree written into the directory. *)
  ext_simple_save : world -> string -> gmap string string -> gmap string string -> result artifact;
  (** [requests.post] *)
  ext_post : world -> string -> json -> result response;
  (** [datetime.utcnow()], in seconds *)
  ext_utcnow : world -> Q;
  (** [numpy.argmax] on a value that is not a vector of numbers *)
  ext_argmax_other : json -> result nat;
  (** [numpy.argmax] on a vector of numbers holding an integer that is not
      exactly a binary64 value: the position found depends on the array
      type numpy chooses and on its rounding *)
  ext_argmax_inexact : list Q -> nat;
  (** [str.isdigit] on a name with characters outside ASCII, all of whose
      ASCII characters are digits *)
  ext_isdigit_unicode : string -> bool;
  (** the names printed by [ls] for a directory *)
  ext_ls : world -> string -> list string;
  (** the global [eval_data], each image after [tolist()] *)
  eval_data : list json
}.

(** ** The monad: state of the world plus exceptions *)

Definition M (A : Type) : Type := world -> result A * world.

Definition ret {A} (a : A) : M A := fun w => (Ok a, w).

Definition raise {A} (e : exn) : M A := fun w => (Raise e, w).

Definition bind {A B} (c : M A) (k : A -> M B) : M B :=
  fun w =>
    match c w with
    | (Ok a, w') => k a w'
    | (Raise e, w') => (Raise e, w')
    end.

#[global] Instance M_ret : MRet M := @ret.
#[global] Instance M_bind : MBind M := fun A B k c => bind c k.

(** Record a call in the log. *)
Definition emit (e : event) : M unit :=
  fun w => (Ok tt, World (fs w) (log w ++ [e])).

(** Lift a pure fallible computation. *)
Definition lift {A} (r : result A) : M A := fun w => (r, w).

(** Read the world. *)
Definition get_world : M world := fun w => (Ok w, w).

(** Replace the file system. *)
Definition put_fs (f : gmap string fsnode) : M unit :=
  fun w => (Ok tt, World f (log w)).

(** ** File-system operations of the libraries *)

Module FS.

(** The prefix shared by everything below directory [d]. *)
Definition dir_prefix (d : string) : string :=
  if Py.endswith_sep d then d else d +:+ "/".

(** [p] is [d] itself or lies below it. *)
Definition under (d p : string) : bool :=
  bool_decide (p = d) || String.prefix (dir_prefix d) p.

Definition exists_ (p : string) (f : gmap string fsnode) : bool :=
  bool_decide (is_Some (f !! p)).

(** What is left after removing [d] and everything below it. *)
Definition remove_tree (d : string) (f : gmap string fsnode) : gmap string fsnode :=
  filter (fun kv : string * fsnode => under d kv.1 = false) f.

(** A path component read so far names a directory unless it is empty or
    ends in a separator. *)
Definition named_dir (acc : string) : list string :=
  if bool_decide (acc = "") || Py.endswith_sep acc then [] else [acc].

(** The proper prefixes of a path that end just before a separator, and
    the path itself: the directories [mkdir -p] makes sure exist. *)
Fixpoint dirs_upto (acc s : string) : list string :=
  match s with
  | EmptyString => named_dir acc
  | String c s' =>
      if bool_decide (c = "/"%char)
      then named_dir acc ++ dirs_upto (acc +:+ "/") s'
      else dirs_upto (acc +:+ String c EmptyString) s'
  end.

(** Create a directory where nothing exists yet. *)
Definition ensure_dir (p : string) (f : gmap string fsnode) : gmap string fsnode :=
  match f !! p with
  | Some _ => f
  | None => <[p := Dir]> f
  end.

Definition make_dirs (p : string) (f : gmap string fsnode) : gmap string fsnode :=
  foldr ensure_dir f (dirs_upto "" p).

(** Write an exported tree below [root]. *)
Definition write_tree (root : string) (a : artifact) (f : gmap string fsnode)
  : gmap string fsnode :=
  foldr (fun e m => <[Py.os_path_join root e.1 := e.2]> m) (make_dirs root f) a.

(** The part of [p] after directory [src], when [p] lies strictly below
    it and its first component is not hidden (the expansion of [src/*]). *)
Definition glob_rel (src p : string) : option string :=
  let pre := src +:+ "/" in
  if String.prefix pre p then
    match String.substring (String.length pre) (String.length p - String.length pre) p with
    | EmptyString => None
    | String c r => if bool_decide (c = "."%char) then None else Some (String c r)
    end
  else None.





(** The entries [cp -r src/* dst] creates. *)
Definition copied (src dst : string) (f : gmap string fsnode) : list (string * fsnode) :=
  omap (fun kv : string * fsnode =>
          match glob_rel src kv.1 with
          | Some rel => Some (dst +:+ "/" +:+ rel, kv.2)
          | None => None
          end) (map_to_list f).

End FS.

(** ** Library calls, each logging itself *)

Section Calls.

Variable X : externals.

Definition print (fmt : string) (args : list fmtarg) : M unit :=
  emit (EvPrint fmt args).

(** [tf.gfile.Exists] *)
Definition gfile_Exists (p : string) : M bool :=
  emit (EvExists p);;
  w ← get_world;
  ret (FS.exists_ p (fs w)).

(** [tf.gfile.DeleteRecursively]: raises when the path does not exist. *)
Definition gfile_DeleteRecursively (p : string) : M unit :=
  emit (EvDeleteRecursively p);;
  w ← get_world;
  if FS.exists_ p (fs w)
  then put_fs (FS.remove_tree p (fs w))
  else raise (NotFoundError OpDelete p).

Definition get_graph_def_from_file (path : string) : M graph_def :=
  emit (EvGetGraphDefFromFile path);;
  w ← get_world;
  lift (ext_get_graph_def_from_file X (fs w) path).

Definition describe_graph (g : graph_def) : M unit :=
  emit (EvDescribeGraph g);;
  w ← get_world;
  lift (ext_describe_graph X w g).


(** [estimator.export_savedmodel(export_dir_base=...)] *)
Definition export_savedmodel (export_dir_base : string) : M string :=
  emit (EvExportSavedModel export_dir_base);;
  w ← get_world;
  r ← lift (ext_export_savedmodel X w export_dir_base);
  let target := Py.os_path_join export_dir_base r.1 in
  put_fs (FS.write_tree target r.2 (fs w));;
  ret target.

(** [freeze_graph.freeze_graph(...)]: writes [output_graph]. *)
Definition tool_freeze_graph (args : freeze_args) : M unit :=
  emit (EvFreezeGraph args);;
  w ← get_world;
  content ← lift (ext_freeze_graph X w args);
  put_fs (<[output_graph args := File content]> (fs w)).

Definition TransformGraph (g : graph_def) (input_names output_names transforms : list string)
  : M graph_def :=
  emit (EvTransformGraph g input_names output_names transforms);;
  w ← get_world;
  lift (ext_TransformGraph X w g input_names output_names transforms).

(** [tf.train.write_graph(graph, logdir=..., as_text=..., name=...)] *)
Definition write_graph (g : graph_def) (logdir : string) (as_text : bool) (name : string)
  : M unit :=
  emit (EvWriteGraph g logdir as_text name);;
  w ← get_world;
  put_fs (<[Py.os_path_join logdir name := File (ext_serialize X g)]>
            (FS.make_dirs logdir (fs w))).

(** [session.graph.get_tensor_by_name]; a tensor is known by its name. *)
Definition get_tensor_by_name (g : graph_def) (name : string) : result string :=
  if ext_has_tensor X g name then Ok name else Raise (KeyError name).

(** [tf.saved_model.simple_save(session, export_dir, inputs, outputs)] *)
Definition simple_save (export_dir : string) (inputs outputs : gmap string string) : M unit :=
  emit (EvSimpleSave export_dir inputs outputs);;
  w ← get_world;
  tree ← lift (ext_simple_save X w export_dir inputs outputs);
  put_fs (FS.write_tree export_dir tree (fs w)).

(** [requests.post(url, json=payload)] *)
Definition requests_post (url : string) (payload : json) : M response :=
  emit (EvPost url payload);;
  w ← get_world;
  lift (ext_post X w url payload).

(** [res.raise_for_status()]: client and server error codes raise. *)
Definition raise_for_status (res : response) : M unit :=
  if (400 <=? status_code res)%Z && (status_code res <? 600)%Z
  then raise (HTTPError (status_code res))
  else ret tt.

(** [res.json()] *)
Definition res_json (res : response) : M json :=
  match body res with
  | Some j => ret j
  | None => raise JSONDecodeError
  end.

(** [datetime.utcnow()] *)
Definition utcnow : M Q :=
  w ← get_world;
  let t := ext_utcnow X w in
  emit (EvUtcNow t);;
  ret t.

(** [mkdir -p] *)
Definition mkdir_p (p : string) : M unit :=
  emit (EvMkdirP p);;
  w ← get_world;
  put_fs (FS.make_dirs p (fs w)).

(** [cp -r src/* dst]; with nothing to expand, [cp] fails. *)
Definition cp_r_glob (src dst : string) : M unit :=
  emit (EvCpR src dst);;
  w ← get_world;
  match FS.copied src dst (fs w) with
  | [] => raise (ToolError "cp" "cannot stat")
  | l => put_fs (list_to_map l ∪ fs w)
  end.

End Calls.

(** ** Python values: subscripting, iteration, comprehensions *)

Module PyVal.

(** [d[key]] on a parsed JSON value: only a [dict] accepts a string key. *)
Definition getitem (j : json) (key : string) : result json :=
  match j with
  | JObj items =>
      match list_find (fun kv : string * json => kv.1 = key) items with
      | Some (_, kv) => Ok kv.2
      | None => Raise (KeyError key)
      end
  | _ => Raise (TypeError "indices must be integers or the object is not subscriptable")
  end.

Fixpoint chars (s : string) : list json :=
  match s with
  | EmptyString => []
  | String c s' => JStr (String c EmptyString) :: chars s'
  end.

(** [for item in j]: lists give their elements, dicts their keys, strings
    their characters. *)
Definition iter (j : json) : result (list json) :=
  match j with
  | JList l => Ok l
  | JObj items => Ok (map (fun kv => JStr kv.1) items)
  | JStr s => Ok (chars s)
  | _ => Raise (TypeError "object is not iterable")
  end.

Definition as_number (j : json) : option Q :=
  match j with
  | JNum q => Some q
  | _ => None
  end.

(** A flat list of numbers. *)
Definition as_vector (j : json) : option (list Q) :=
  match j with
  | JList l => mapM as_number l
  | _ => None
  end.

(** [[f(item) for item in l]]: left to right, the first exception ends it. *)
Fixpoint comprehension {A B} (f : A -> result B) (l : list A) : result (list B) :=
  match l with
  | [] => Ok []
  | x :: l' =>
      match f x with
      | Ok y =>
          match comprehension f l' with
          | Ok ys => Ok (y :: ys)
          | Raise e => Raise e
          end
      | Raise e => Raise e
      end
  end.

End PyVal.

(** ** The notebook *)

Section Notebook.

Variable X : externals.

Definition MODELS_LOCATION : string := "/saved_models/".
Definition MODEL_NAME : string := "mnist".
Definition model_dir : string := Py.os_path_join MODELS_LOCATION MODEL_NAME.

(** *** Export the model *)

Definition export_dir : string := Py.os_path_join model_dir "export".

Definition export_cell : M string :=
  b ← gfile_Exists export_dir;
  (if b : bool then gfile_DeleteRecursively export_dir else mret tt);;
  export_savedmodel X export_dir.

(** *** Copy the SavedModel to the serving path (bash) *)

Definition copy_to_serving_cell : M unit :=
  let saved_models_base := "/saved_models/mnist/export/" in
  emit (EvLs saved_models_base);;
  w ← get_world;
  let saved_model_dir :=
    saved_models_base +:+ default "" (last (ext_ls X w saved_models_base)) in
  mkdir_p "/serving/mnist/1";;
  cp_r_glob saved_model_dir "/serving/mnist/1".


(** *** Inference through the REST client *)

Definition SERVER_URL : string := "http://localhost:8501".

(** ["{}/v1/models/mnist/versions/{}:predict".format(SERVER_URL, version)] *)
Definition predict_url (version : Z) : string :=
  SERVER_URL +:+ "/v1/models/mnist/versions/" +:+ Py.str version +:+ ":predict".

(** [np.argmax(item)].  An empty vector raises.  When every score is
    exactly a binary64 value, numpy compares the scores as they are,
    whichever array type it chooses, and returns the first position of the
    largest.  Otherwise the position is the parameter's, of which only that
    it is a position of the vector is kept. *)
Definition np_argmax (item : json) : result nat :=
  match PyVal.as_vector item with
  | Some v =>
      match Py.argmax_vector v with
      | Some i =>
          Ok (if forallb Py.float64_exact v then i
              else Nat.min (ext_argmax_inexact X v) (length v - 1))
      | None => Raise (ValueError "attempt to get argmax of an empty sequence")
      end
  | None => ext_argmax_other X item
  end.

Definition predict (instances : list json) (version : Z) : M (list nat) :=
  let payload := JObj [("instances", JList instances)] in
  res ← requests_post X (predict_url version) payload;
  raise_for_status res;;
  response ← res_json res;
  predictions ← lift (PyVal.getitem response "predictions");
  items ← lift (PyVal.iter predictions);
  class_ids ← lift (PyVal.comprehension np_argmax items);
  mret class_ids.

(** [for i in range(batch): instances.append(eval_data[i].tolist())] *)
Fixpoint collect_instances (i n : nat) (instances : list json) : result (list json) :=
  match n with
  | O => Ok instances
  | S n' =>
      match eval_data X !! i with
      | Some img => collect_instances (S i) n' (instances ++ [img])
      | None => Raise (IndexError "index out of bounds")
      end
  end.

(** [for i in range(repeat): output = predict(instances, version=version)] *)
Fixpoint timed_requests (n : nat) (instances : list json) (version : Z)
    (output : option (list nat)) : M (option (list nat)) :=
  match n with
  | O => mret output
  | S n' =>
      out ← predict instances version;
      timed_requests n' instances version (Some out)
  end.

Definition benchmark_inference (version batch repeat : Z) : M unit :=
  instances ← lift (collect_instances 0 (Z.to_nat batch) []);
  (* warmup request *)
  predict (take 1 instances) version;;
  print "Warm up request performed!" [];;
  print "Timer started..." [];;
  time_start ← utcnow X;
  output ← timed_requests (Z.to_nat repeat) instances version None;
  time_end ← utcnow X;
  let time_elapsed_sec := (time_end - time_start)%Q in
  print "Inference elapsed time: {} seconds\n" [FSeconds time_elapsed_sec];;
  n ← match output with
      | Some o => mret (Z.of_nat (length o))
      | None => raise (TypeError "object of type 'NoneType' has no len()")
      end;
  print "Prediction produced for {} instances batch, repeated {} times"
    [FInt n; FInt repeat];;
  avg ← (if bool_decide (repeat = 0%Z) then raise ZeroDivisionError
         else mret (time_elapsed_sec / inject_Z repeat)%Q);
  print "Average latency per batch: {} seconds" [FSeconds avg];;
  first ← match output with
          | Some (c :: _) => mret c
          | Some [] => raise (IndexError "list index out of range")
          | None => raise (TypeError "'NoneType' object is not subscriptable")
          end;
  print "Prediction output for the last instance: {}" [FClass first].

(** The three benchmark cells: [benchmark_inference()],
    [benchmark_inference(version=2)] and [benchmark_inference(version=3)],
    with the defaults [batch=100, repeat=10]. *)
Definition benchmark_cell (version : Z) : M unit :=
  benchmark_inference version 100 10.

(** *** Freeze the SavedModel *)

(** [tag_constants.SERVING] *)
Definition tag_constants_SERVING : string := "serve".

Definition freeze_graph (saved_model_dir : string) : M unit :=
  let output_graph_filename := Py.os_path_join saved_model_dir "freezed_model.pb" in
  let output_node_names := "softmax/Softmax" in
  let initializer_nodes := "" in
  tool_freeze_graph X
    {| input_saved_model_dir := saved_model_dir;
       output_graph := output_graph_filename;
       saved_model_tags := tag_constants_SERVING;
       output_node_names := output_node_names;
       initializer_nodes := initializer_nodes;
       input_graph := None;
       input_saver := false;
       input_binary := false;
       input_checkpoint := None;
       restore_op_name := None;
       filename_tensor_name := None;
       clear_devices := false;
       input_meta_graph := false |};;
  print "SavedModel graph freezed!" [].

Definition freezed_filepath (saved_model_dir : string) : string :=
  Py.os_path_join saved_model_dir "freezed_model.pb".

Definition freeze_cell (saved_model_dir : string) : M unit :=
  freeze_graph saved_model_dir;;
  g ← get_graph_def_from_file X (freezed_filepath saved_model_dir);
  describe_graph X g.

(** *** Convert a GraphDef file to a SavedModel *)

(** [{node.name: session.graph.get_tensor_by_name("{}:0".format(node.name))
     for node in graph_def.node if node.op == 'Placeholder'}] *)
Fixpoint placeholder_inputs (g : graph_def) (nodes : list node_def)
    (d : gmap string string) : result (gmap string string) :=
  match nodes with
  | [] => Ok d
  | node :: nodes' =>
      if bool_decide (node_op node = "Placeholder") then
        match get_tensor_by_name X g (node_name node +:+ ":0") with
        | Ok t => placeholder_inputs g nodes' (<[node_name node := t]> d)
        | Raise e => Raise e
        end
      else placeholder_inputs g nodes' d
  end.

Definition convert_graph_def_to_saved_model (graph_filepath export_dir : string) : M unit :=
  b ← gfile_Exists export_dir;
  (if b : bool then gfile_DeleteRecursively export_dir else mret tt);;
  graph_def ← get_graph_def_from_file X graph_filepath;
  lift (ext_import_graph_def X graph_def);;
  inputs ← lift (placeholder_inputs graph_def graph_def ∅);
  softmax ← lift (get_tensor_by_name X graph_def "softmax/Softmax:0");
  simple_save X export_dir inputs {["softmax" := softmax]};;
  print "Optimised graph converted to SavedModel!" [].


(** *** Optimise the frozen graph *)

Definition optimize_graph (model_dir graph_filename : string) (transforms : list string)
  : M unit :=
  let input_names : list string := [] in
  let output_names := ["softmax/Softmax"] in
  graph_def ← get_graph_def_from_file X (Py.os_path_join model_dir graph_filename);
  optimised_graph_def ← TransformGraph X graph_def input_names output_names transforms;
  write_graph X optimised_graph_def model_dir false "optimised_model.pb";;
  print "Freezed graph optimised!" [].

Definition transforms : list string :=
  [ "remove_nodes(op=Identity)";
    "fold_constants(ignore_errors=true)";
    "fold_batch_norms";
    "fuse_resize_pad_and_conv";
    "quantize_weights";
    "quantize_nodes";
    "merge_duplicate_nodes";
    "strip_unused_nodes";
    "sort_by_execution_order" ].

Definition optimize_cell (saved_model_dir : string) : M unit :=
  optimize_graph saved_model_dir "freezed_model.pb" transforms.

Definition optimised_filepath (saved_model_dir : string) : string :=
  Py.os_path_join saved_model_dir "optimised_model.pb".


End Notebook.

(** ** Reading the log *)

(** The calls a computation adds to the log when started in [w]. *)
Definition new_events {A} (c : M A) (w : world) : list event :=
  drop (length (log w)) (log (c w).2).

(** The graph-transform calls: graph, input names, output names, passes. *)
Definition transform_calls (l : list event)
  : list (graph_def * list string * list string * list string) :=
  omap (fun e => match e with
                 | EvTransformGraph g i o t => Some (g, i, o, t)
                 | _ => None
                 end) l.

(** The SavedModel export calls: directory, inputs, outputs. *)
Definition save_calls (l : list event)
  : list (string * gmap string string * gmap string string) :=
  omap (fun e => match e with
                 | EvSimpleSave d i o => Some (d, i, o)
                 | _ => None
                 end) l.

(** The recursive deletions. *)
Definition deletes (l : list event) : list string :=
  omap (fun e => match e with
                 | EvDeleteRecursively p => Some p
                 | _ => None
                 end) l.

(** The HTTP requests: URL and body. *)
Definition posts (l : list event) : list (string * json) :=
  omap (fun e => match e with
                 | EvPost u p => Some (u, p)
                 | _ => None
                 end) l.

(** The directories into which a model is placed for the server. *)
Definition serving_targets (l : list event) : list string :=
  omap (fun e => match e with
                 | EvMkdirP d => Some d
                 | EvCpR _ d => Some d
                 | EvSimpleSave d _ _ => Some d
                 | _ => None
                 end) l.

(** The graph files read. *)
Definition graph_reads (l : list event) : list string :=
  omap (fun e => match e with
                 | EvGetGraphDefFromFile p => Some p
                 | _ => None
                 end) l.

(** ** Specification vocabulary *)

(** [i] is the first position of [v] holding its largest element. *)
Definition is_first_max (v : list Q) (i : nat) : Prop :=
  exists x, v !! i = Some x
    /\ (forall j y, v !! j = Some y -> (y <= x)%Q)
    /\ (forall j y, (j < i)%nat -> v !! j = Some y -> (y < x)%Q).

(** The status codes on which [raise_for_status] raises. *)
Definition is_error_status (s : Z) : bool :=
  (400 <=? s)%Z && (s <? 600)%Z.

(** The status codes of the 2xx class. *)
Definition is_success_status (s : Z) : bool :=
  (200 <=? s)%Z && (s <? 300)%Z.

(** The body of a prediction request. *)
Definition predict_payload (instances : list json) : json :=
  JObj [("instances", JList instances)].


(** The world after the overwrite guard
    [if tf.gfile.Exists(d): tf.gfile.DeleteRecursively(d)]. *)
Definition after_guard (d : string) (w : world) : world :=
  if FS.exists_ d (fs w)
  then World (FS.remove_tree d (fs w)) (log w ++ [EvExists d; EvDeleteRecursively d])
  else World (fs w) (log w ++ [EvExists d]).

(** What [convert_graph_def_to_saved_model] does once the overwrite guard
    has run, by the answers of the tools; [w0] is the world the guard left. *)
Definition convert_after_guard (X : externals) (graph_filepath export_dir : string)
    (w0 : world) : result unit * world :=
  let w1 := World (fs w0) (log w0 ++ [EvGetGraphDefFromFile graph_filepath]) in
  match ext_get_graph_def_from_file X (fs w0) graph_filepath with
  | Raise e => (Raise e, w1)
  | Ok g =>
      match ext_import_graph_def X g with
      | Raise e => (Raise e, w1)
      | Ok _ =>
          match placeholder_inputs X g g ∅ with
          | Raise e => (Raise e, w1)
          | Ok inputs =>
              match get_tensor_by_name X g "softmax/Softmax:0" with
              | Raise e => (Raise e, w1)
              | Ok softmax =>
                  let outputs : gmap string string := {["softmax" := softmax]} in
                  let w2 := World (fs w0)
                              (log w0 ++ [EvGetGraphDefFromFile graph_filepath;
                                          EvSimpleSave export_dir inputs outputs]) in
                  match ext_simple_save X w2 export_dir inputs outputs with
                  | Raise e => (Raise e, w2)
                  | Ok tree =>
                      (Ok tt,
                       World (FS.write_tree export_dir tree (fs w0))
                             (log w0 ++ [EvGetGraphDefFromFile graph_filepath;
                                         EvSimpleSave export_dir inputs outputs;
                                         EvPrint "Optimised graph converted to SavedModel!" []]))
                  end
              end
          end
      end
  end.

(** [tree] is the tree the exporter answered with in the conversion of the
    graph file [graph_filepath] into [export_dir] that starts in [w]: the
    answer to the one export call, made in the world the guard left, for
    the inputs found in the graph read there. *)
Definition converted_tree (X : externals) (graph_filepath export_dir : string)
    (w : world) (tree : artifact) : Prop :=
  exists g inputs,
    let outputs : gmap string string := {["softmax" := "softmax/Softmax:0"]} in
    let w0 := after_guard export_dir w in
    ext_get_graph_def_from_file X (fs w0) graph_filepath = Ok g
    /\ placeholder_inputs X g g ∅ = Ok inputs
    /\ ext_simple_save X
         (World (fs w0) (log w0 ++ [EvGetGraphDefFromFile graph_filepath;
                                    EvSimpleSave export_dir inputs outputs]))
         export_dir inputs outputs = Ok tree.

(** The file system [f] holds [tree] below [d]: each entry of the tree is
    found at its path below [d] (if the tree names a path twice, its first
    entry for it). *)
Definition tree_below (d : string) (tree : artifact) (f : gmap string fsnode) : Prop :=
  forall pre rel n post,
    tree = pre ++ (rel, n) :: post ->
    Forall (fun e : string * fsnode => Py.os_path_join d e.1 <> Py.os_path_join d rel) pre ->
    f !! Py.os_path_join d rel = Some n.

(** The world after [k] more copies of one request were logged. *)
Definition after_posts (w : world) (post : event) (k : nat) : world :=
  World (fs w) (log w ++ replicate k post).

(** The three closing reports of [benchmark_inference]. *)
Definition closing_reports (n repeat : Z) (elapsed : Q) (first : nat) : list event :=
  [ EvPrint "Prediction produced for {} instances batch, repeated {} times" [FInt n; FInt repeat];
    EvPrint "Average latency per batch: {} seconds" [FSeconds (elapsed / inject_Z repeat)%Q];
    EvPrint "Prediction output for the last instance: {}" [FClass first] ].

(** ** A small concrete outside world, for running the notebook *)

Module Demo.

(** A file holding [c] parses to a graph with one placeholder named [c]. *)
Definition graph_of (c : string) : graph_def :=
  [ NodeDef c "Placeholder" "";
    NodeDef "flatten/Identity" "Identity" "";
    NodeDef "softmax/Softmax" "Softmax" "" ].

(** The transform tool, reduced to the removal of identity nodes. *)
Definition strip_identity (g : graph_def) : graph_def :=
  filter (fun node => node_op node <> "Identity") g.

(** The serialised graph, reduced to the names of its nodes. *)
Definition serialize (g : graph_def) : string :=
  foldr (fun node s => node_name node +:+ ";" +:+ s) "" g.

Definition read (f : gmap string fsnode) (p : string) : result graph_def :=
  match f !! p with
  | Some (File c) => Ok (graph_of c)
  | _ => Raise (NotFoundError OpRead p)
  end.

Definition scores : json := JList [JNum (1 # 8); JNum (5 # 8); JNum (1 # 4)].

(** One score vector per instance of the request. *)
Definition serve (payload : json) : response :=
  match payload with
  | JObj [(_, JList l)] =>
      Response 200 (Some (JObj [("predictions", JList (map (fun _ => scores) l))]))
  | _ => Response 400 None
  end.

Definition ext : externals := {|
  ext_get_graph_def_from_file := read;
  ext_describe_graph := fun _ _ => Ok tt;
  ext_get_size := fun _ _ => Ok tt;
  ext_export_savedmodel := fun _ _ => Ok ("1554000000", [("saved_model.pb", File "exported")]);
  ext_freeze_graph := fun _ _ => Ok "frozen";
  ext_TransformGraph := fun _ g _ _ _ => Ok (strip_identity g);
  ext_serialize := serialize;
  ext_import_graph_def := fun _ => Ok tt;
  ext_has_tensor := fun _ _ => true;
  ext_simple_save := fun _ _ _ _ => Ok [("saved_model.pb", File "converted")];
  ext_post := fun _ _ payload => Ok (serve payload);
  ext_utcnow := fun w => inject_Z (Z.of_nat (length (log w)));
  ext_argmax_other := fun _ => Raise (TypeError "not a vector");
  (* numpy's answer for [2^63 - 1, 2^63], which it stores as two equal
     binary64 values; no other inexact vector occurs in this world *)
  ext_argmax_inexact := fun _ => O;
  (* no name of this world has a character outside ASCII *)
  ext_isdigit_unicode := fun _ => false;
  ext_ls := fun _ _ => ["1554000000"];
  eval_data := [JList [JNum 0]; JList [JNum 1]; JList [JNum 2]]
|}.

(** The same world with a server that answers 200 without predictions. *)
Definition ext_no_predictions : externals := {|
  ext_get_graph_def_from_file := read;
  ext_describe_graph := ext_describe_graph ext;
  ext_get_size := ext_get_size ext;
  ext_export_savedmodel := ext_export_savedmodel ext;
  ext_freeze_graph := ext_freeze_graph ext;
  ext_TransformGraph := ext_TransformGraph ext;
  ext_serialize := ext_serialize ext;
  ext_import_graph_def := ext_import_graph_def ext;
  ext_has_tensor := ext_has_tensor ext;
  ext_simple_save := ext_simple_save ext;
  ext_post := fun _ _ _ => Ok (Response 200 (Some (JObj [])));
  ext_utcnow := ext_utcnow ext;
  ext_argmax_other := ext_argmax_other ext;
  ext_argmax_inexact := ext_argmax_inexact ext;
  ext_isdigit_unicode := ext_isdigit_unicode ext;
  ext_ls := ext_ls ext;
  eval_data := eval_data ext
|}.

Definition empty : world := World ∅ [].

(** A world with a frozen graph in a saved-model directory. *)
Definition frozen : world :=
  World {[ "/m" := Dir;
         "/m/freezed_model.pb" := File "serving_input_image";
           "/m/optimised_model.pb" := File "input_image" ]} [].

End Demo.

(** ** The cells before the export: model, estimator, training directory *)

(** [tf.contrib.training.HParams(...)] as the notebook fills it. *)
Record hparams := HParams {
  batch_size : Z;
  hidden_units : list Z;
  num_conv_layers : Z;
  init_filters : Z;
  dropout : Q;
  max_training_steps : Z;
  eval_throttle_secs : Z;
  learning_rate : Q;
  debug : bool
}.

(** [tf.estimator.RunConfig(...)] *)
Record run_config := RunConfig {
  tf_random_seed : Z;
  save_checkpoints_steps : Z;
  keep_checkpoint_max : Z;
  config_model_dir : string
}.

(** A Keras layer as the notebook constructs it, with the arguments given. *)
Inductive layer :=
| Input (shape : list Z) (name : string)
| Reshape (target_shape : list Z) (name : string)
| Conv2D (kernel_size filters strides : Z) (padding activation : string)
| MaxPool2D (pool_size strides : Z) (padding : string)
| BatchNormalization
| Flatten (name : string)
| Dense (units : Z) (activation : option string) (name : option string)
| Dropout (rate : Q)
| Activation (activation name : string).

(** The [optimizer] argument of [compile]: a name or an optimizer object. *)
Inductive optimizer :=
| OptimizerName (name : string)
| Adam (lr : Q).

(** What [model_to_estimator] receives: the compiled model and the
    configuration. *)
Record estimator := Estimator {
  keras_model : list layer;
  compile_loss : string;
  compile_optimizer : optimizer;
  compile_metrics : list string;
  estimator_config : run_config
}.

Definition NUM_CLASSES : Z := 10.

(** [for i in range(params.num_conv_layers): ...]; a tensor is known by the
    chain of layers that produced it. *)
Fixpoint conv_blocks (i n : nat) (params : hparams) (conv_inputs : list layer) : list layer :=
  match n with
  | O => conv_inputs
  | S n' =>
      let filters := (init_filters params * 2 ^ Z.of_nat i)%Z in
      let conv := conv_inputs ++ [Conv2D 3 filters 1 "SAME" "relu"] in
      let max_pool := conv ++ [MaxPool2D 2 2 "SAME"] in
      let batch_norm := max_pool ++ [BatchNormalization] in
      conv_blocks (S i) n' params batch_norm
  end.

(** [for i in range(len(params.hidden_units)): ... params.hidden_units[i] ...] *)
Fixpoint dense_blocks (units : list Z) (params : hparams) (dense_inputs : list layer)
  : list layer :=
  match units with
  | [] => dense_inputs
  | u :: units' =>
      let dense := dense_inputs ++ [Dense u (Some "relu") None] in
      let dropout := dense ++ [Dropout (dropout params)] in
      dense_blocks units' params dropout
  end.

(** The layers are recorded with the arguments they are constructed with;
    the checks the Keras constructors make on those arguments are not
    modelled. *)
Definition keras_model_fn (params : hparams) : list layer :=
  let inputs := [Input [28; 28]%Z "input_image"] in
  let input_layer := inputs ++ [Reshape [28; 28; 1]%Z "reshape"] in
  (* convolutional layers *)
  let conv_inputs := conv_blocks 0 (Z.to_nat (num_conv_layers params)) params input_layer in
  let flatten := conv_inputs ++ [Flatten "flatten"] in
  (* fully-connected layers *)
  let dense_inputs := dense_blocks (hidden_units params) params flatten in
  (* softmax classifier *)
  let logits := dense_inputs ++ [Dense NUM_CLASSES None (Some "logits")] in
  let softmax := logits ++ [Activation "softmax" "softmax"] in
  softmax.

(** [print(keras_model.summary())] prints what [summary()] returns. *)
Definition create_estimator (params : hparams) (run_config : run_config) : M estimator :=
  let keras_model := keras_model_fn params in
  print "None" [];;
  let optimizer := Adam (learning_rate params) in
  mret {| keras_model := keras_model;
          compile_loss := "sparse_categorical_crossentropy";
          compile_optimizer := OptimizerName "adam";
          compile_metrics := ["accuracy"];
          estimator_config := run_config |}.

(** The hyper-parameters of the notebook. *)
Definition params : hparams :=
  {| batch_size := 100;
     hidden_units := [512; 512]%Z;
     num_conv_layers := 3;
     init_filters := 64;
     dropout := 2 # 10;
     max_training_steps := 50;
     eval_throttle_secs := 10;
     learning_rate := 1 # 1000;
     debug := true |}.



(** ** Choosing the exported model *)

(** An ASCII digit. *)
Definition is_digit (c : ascii) : bool :=
  (48 <=? nat_of_ascii c)%nat && (nat_of_ascii c <=? 57)%nat.

(** A byte of an ASCII character. *)
Definition is_ascii (c : ascii) : bool := (nat_of_ascii c <? 128)%nat.

(** Every ASCII character of the name is a digit. *)
Fixpoint ascii_chars_are_digits (s : string) : bool :=
  match s with
  | EmptyString => true
  | String c s' => (is_digit c || negb (is_ascii c)) && ascii_chars_are_digits s'
  end.

Fixpoint all_ascii (s : string) : bool :=
  match s with
  | EmptyString => true
  | String c s' => is_ascii c && all_ascii s'
  end.

(** [f.isdigit()] on a [str]: at least one character, and digits only.  An
    ASCII character is a digit when it is one of [0] to [9]; which other
    characters count as digits is the parameter's say. *)
Definition isdigit (X : externals) (f : string) : bool :=
  match f with
  | EmptyString => false
  | _ => ascii_chars_are_digits f && (all_ascii f || ext_isdigit_unicode X f)
  end.

(** [os.path.join(export_dir,
      [f for f in os.listdir(export_dir) if f.isdigit()][0])],
    given what [os.listdir(export_dir)] returned. *)
Definition saved_model_dir_of (X : externals) (listdir : list string) : result string :=
  match List.filter (isdigit X) listdir with
  | f :: _ => Ok (Py.os_path_join export_dir f)
  | [] => Raise (IndexError "list index out of range")
  end.

(** ** Variations of the concrete outside world *)

Module Edge.

(** The world of [Demo] with another server. *)
Definition with_post (post : world -> string -> json -> result response) : externals :=
  {| ext_get_graph_def_from_file := ext_get_graph_def_from_file Demo.ext;
     ext_describe_graph := ext_describe_graph Demo.ext;
     ext_get_size := ext_get_size Demo.ext;
     ext_export_savedmodel := ext_export_savedmodel Demo.ext;
     ext_freeze_graph := ext_freeze_graph Demo.ext;
     ext_TransformGraph := ext_TransformGraph Demo.ext;
     ext_serialize := ext_serialize Demo.ext;
     ext_import_graph_def := ext_import_graph_def Demo.ext;
     ext_has_tensor := ext_has_tensor Demo.ext;
     ext_simple_save := ext_simple_save Demo.ext;
     ext_post := post;
     ext_utcnow := ext_utcnow Demo.ext;
     ext_argmax_other := ext_argmax_other Demo.ext;
     ext_argmax_inexact := ext_argmax_inexact Demo.ext;
     ext_isdigit_unicode := ext_isdigit_unicode Demo.ext;
     ext_ls := ext_ls Demo.ext;
     eval_data := eval_data Demo.ext |}.

(** The world of [Demo] with other answers about tensors and another
    graph-transform tool. *)
Definition with_tools (has_tensor : graph_def -> string -> bool)
    (transform : world -> graph_def -> list string -> list string -> list string
                 -> result graph_def) : externals :=
  {| ext_get_graph_def_from_file := ext_get_graph_def_from_file Demo.ext;
     ext_describe_graph := ext_describe_graph Demo.ext;
     ext_get_size := ext_get_size Demo.ext;
     ext_export_savedmodel := ext_export_savedmodel Demo.ext;
     ext_freeze_graph := ext_freeze_graph Demo.ext;
     ext_TransformGraph := transform;
     ext_serialize := ext_serialize Demo.ext;
     ext_import_graph_def := ext_import_graph_def Demo.ext;
     ext_has_tensor := has_tensor;
     ext_simple_save := ext_simple_save Demo.ext;
     ext_post := ext_post Demo.ext;
     ext_utcnow := ext_utcnow Demo.ext;
     ext_argmax_other := ext_argmax_other Demo.ext;
     ext_argmax_inexact := ext_argmax_inexact Demo.ext;
     ext_isdigit_unicode := ext_isdigit_unicode Demo.ext;
     ext_ls := ext_ls Demo.ext;
     eval_data := eval_data Demo.ext |}.

(** The world of [Demo] with another reader of graph files. *)
Definition with_reader (read : gmap string fsnode -> string -> result graph_def)
  : externals :=
  {| ext_get_graph_def_from_file := read;
     ext_describe_graph := ext_describe_graph Demo.ext;
     ext_get_size := ext_get_size Demo.ext;
     ext_export_savedmodel := ext_export_savedmodel Demo.ext;
     ext_freeze_graph := ext_freeze_graph Demo.ext;
     ext_TransformGraph := ext_TransformGraph Demo.ext;
     ext_serialize := ext_serialize Demo.ext;
     ext_import_graph_def := ext_import_graph_def Demo.ext;
     ext_has_tensor := ext_has_tensor Demo.ext;
     ext_simple_save := ext_simple_save Demo.ext;
     ext_post := ext_post Demo.ext;
     ext_utcnow := ext_utcnow Demo.ext;
     ext_argmax_other := ext_argmax_other Demo.ext;
     ext_argmax_inexact := ext_argmax_inexact Demo.ext;
     ext_isdigit_unicode := ext_isdigit_unicode Demo.ext;
     ext_ls := ext_ls Demo.ext;
     eval_data := eval_data Demo.ext |}.

(** A server whose second prediction is empty. *)
Definition ext_empty_prediction : externals :=
  with_post (fun _ _ _ =>
    Ok (Response 200 (Some (JObj [("predictions", JList [Demo.scores; JList []])])))).

(** A graph importer that knows no tensor of the softmax node. *)
Definition ext_no_softmax : externals :=
  with_tools (fun _ name => negb (String.eqb name "softmax/Softmax:0"))
             (ext_TransformGraph Demo.ext).

(** A graph-transform tool that rejects its input. *)
Definition ext_failing_transform : externals :=
  with_tools (ext_has_tensor Demo.ext)
             (fun _ _ _ _ _ => Raise (ToolError "TransformGraph" "invalid graph")).

(** A served version that still holds the graph file it was made from. *)
Definition served : world :=
  World {[ "/serving/mnist/2" := Dir;
           "/serving/mnist/2/saved_model.pb" := File "converted";
           "/serving/mnist/2/freezed_model.pb" := File "serving_input_image" ]} [].


(** A server that accepts the first two requests and is gone after that. *)
Definition ext_server_lost : externals :=
  with_post (fun w _ payload =>
    if (length (posts (log w)) <=? 2)%nat then Ok (Demo.serve payload)
    else Raise (ConnectionError "connection refused")).

(** A graph file without placeholders, and an exporter that, like
    [simple_save], rejects a model without inputs. *)
Definition ext_no_placeholder : externals :=
  {| ext_get_graph_def_from_file := fun _ _ => Ok [NodeDef "softmax/Softmax" "Softmax" ""];
     ext_describe_graph := ext_describe_graph Demo.ext;
     ext_get_size := ext_get_size Demo.ext;
     ext_export_savedmodel := ext_export_savedmodel Demo.ext;
     ext_freeze_graph := ext_freeze_graph Demo.ext;
     ext_TransformGraph := ext_TransformGraph Demo.ext;
     ext_serialize := ext_serialize Demo.ext;
     ext_import_graph_def := ext_import_graph_def Demo.ext;
     ext_has_tensor := ext_has_tensor Demo.ext;
     ext_simple_save := fun _ _ inputs _ =>
       if decide (inputs = ∅)
       then Raise (ValueError "Prediction inputs cannot be None or empty.")
       else Ok [("saved_model.pb", File "converted")];
     ext_post := ext_post Demo.ext;
     ext_utcnow := ext_utcnow Demo.ext;
     ext_argmax_other := ext_argmax_other Demo.ext;
     ext_argmax_inexact := ext_argmax_inexact Demo.ext;
     ext_isdigit_unicode := ext_isdigit_unicode Demo.ext;
     ext_ls := ext_ls Demo.ext;
     eval_data := eval_data Demo.ext |}.

(** A frozen graph beside a served version made from an earlier graph. *)
Definition converted_before : world :=
  World {[ "/m" := Dir;
           "/m/freezed_model.pb" := File "serving_input_image";
           "/serving" := Dir;
           "/serving/mnist" := Dir;
           "/serving/mnist/2" := Dir;
           "/serving/mnist/2/saved_model.pb" := File "earlier";
           "/serving/mnist/2/variables" := Dir;
           "/serving/mnist/2/variables/variables.index" := File "earlier" ]} [].

(** A model directory left over from an earlier run. *)
Definition trained : world :=
  World {[ "/saved_models" := Dir;
           "/saved_models/mnist" := Dir;
           "/saved_models/mnist/checkpoint" := File "model.ckpt-50";
           "/saved_models/mnist/export" := Dir;
           "/saved_models/mnist/export/1554000000" := Dir;
           "/saved_models/mnist/export/1554000000/saved_model.pb" := File "old" ]} [].

End Edge.

(** * Properties *)

(** ** Running the monad *)

Ltac run_monad :=
  unfold print in *;
  unfold mbind, M_bind, mret, M_ret, bind, ret, raise, lift, emit, get_world,
    put_fs in *; simpl in *.

Lemma new_events_app {A} (c : M A) (w : world) (l : list event) :
  log (c w).2 = log w ++ l -> new_events c w = l.
Proof.
  intros H. unfold new_events. rewrite H. apply drop_app_length.
Qed.

(** ** Paths *)

Lemma string_app_assoc (a b c : string) : (a +:+ b) +:+ c = a +:+ (b +:+ c).
Proof.
  induction a as [| x a IH]; [done |].
  change (String x ((a +:+ b) +:+ c) = String x (a +:+ (b +:+ c))).
  by rewrite IH.
Qed.

Lemma os_path_join_relative (a b : string) :
  Py.startswith_sep b = false ->
  Py.os_path_join a b = (if bool_decide (a = "") then "" else FS.dir_prefix a) +:+ b.
Proof.
  intros Hb. unfold Py.os_path_join, FS.dir_prefix. rewrite Hb.
  case_bool_decide as Ha; simpl.
  - by subst a.
  - destruct (Py.endswith_sep a); [done |].
    by rewrite string_app_assoc.
Qed.

(** ** Freezing *)

(** C6: for every saved-model directory, [freeze_graph] calls the
    freeze-graph utility first, with output node names exactly
    ["softmax/Softmax"] and with the output graph file [freezed_model.pb]
    inside that directory; when the utility succeeds the frozen graph is the
    content of that file, and when it raises the exception propagates. *)
Theorem freeze_graph_fixed_output_node (X : externals) (w : world) (saved_model_dir : string) :
  let path := Py.os_path_join saved_model_dir "freezed_model.pb" in
  exists args : freeze_args,
    output_node_names args = "softmax/Softmax"
    /\ output_graph args = path
    /\ input_saved_model_dir args = saved_model_dir
    /\ path = (if bool_decide (saved_model_dir = "") then ""
               else FS.dir_prefix saved_model_dir) +:+ "freezed_model.pb"
    /\ (let w1 := World (fs w) (log w ++ [EvFreezeGraph args]) in
        match ext_freeze_graph X w1 args with
        | Ok content =>
            freeze_graph X saved_model_dir w =
              (Ok tt, World (<[path := File content]> (fs w))
                            (log w ++ [EvFreezeGraph args; EvPrint "SavedModel graph freezed!" []]))
        | Raise e => freeze_graph X saved_model_dir w = (Raise e, w1)
        end).
Proof.
  intros path.
  exists (FreezeArgs saved_model_dir path tag_constants_SERVING "softmax/Softmax" ""
            None false false None None None false false).
  repeat split.
  - apply os_path_join_relative. reflexivity.
  - unfold freeze_graph, tool_freeze_graph. run_monad. fold path.
    destruct (ext_freeze_graph X _ _) as [content | e]; simpl.
    + run_monad. by rewrite <- app_assoc.
    + reflexivity.
Qed.

(** ** Argmax *)

Lemma argmax_scan_first_max (l pre : list Q) (best : Q) (besti : nat) :
  pre !! besti = Some best ->
  (forall j y, pre !! j = Some y -> (y <= best)%Q) ->
  (forall j y, (j < besti)%nat -> pre !! j = Some y -> (y < best)%Q) ->
  is_first_max (pre ++ l) (Py.argmax_scan best besti (length pre) l).
Proof.
  revert pre best besti.
  induction l as [| x l IH]; intros pre best besti Hbest Hmax Hfirst; simpl.
  - rewrite app_nil_r. exists best. auto.
  - replace (pre ++ x :: l) with ((pre ++ [x]) ++ l) by (by rewrite <- app_assoc).
    replace (S (length pre)) with (length (pre ++ [x]))
      by (rewrite length_app; simpl; lia).
    destruct (Qle_bool x best) eqn:Hle.
    + apply Qle_bool_iff in Hle. apply IH.
      * apply lookup_app_l_Some. exact Hbest.
      * intros j y Hj. apply lookup_app_Some in Hj as [Hj | [_ Hj]]; [eauto |].
        apply list_lookup_singleton_Some in Hj as [_ <-]. exact Hle.
      * intros j y Hlt Hj. apply lookup_app_Some in Hj as [Hj | [Hge _]]; [eauto |].
        apply lookup_lt_Some in Hbest. lia.
    + assert (best < x)%Q as Hlt.
      { apply Qnot_le_lt. intros Hc. apply Qle_bool_iff in Hc. congruence. }
      apply IH.
      * rewrite lookup_app_r by lia. by rewrite Nat.sub_diag.
      * intros j y Hj. apply lookup_app_Some in Hj as [Hj | [_ Hj]].
        -- apply Qlt_le_weak. eapply Qle_lt_trans; [eapply Hmax; eauto | exact Hlt].
        -- apply list_lookup_singleton_Some in Hj as [_ <-]. apply Qle_refl.
      * intros j y Hj' Hj. apply lookup_app_Some in Hj as [Hj | [Hge _]]; [| lia].
        eapply Qle_lt_trans; [eapply Hmax; eauto | exact Hlt].
Qed.

Lemma argmax_vector_first_max (v : list Q) :
  v <> [] -> exists i, Py.argmax_vector v = Some i /\ is_first_max v i.
Proof.
  destruct v as [| x v]; [done | intros _].
  exists (Py.argmax_scan x 0 1 v). split; [done |].
  apply (argmax_scan_first_max v [x] x 0).
  - done.
  - intros j y Hj. apply list_lookup_singleton_Some in Hj as [_ <-]. apply Qle_refl.
  - intros j y Hj. lia.
Qed.

(** On a non-empty vector of numbers [np.argmax] returns a position of the
    vector, and the first position of the largest score when every score
    is exactly a binary64 value. *)
Lemma np_argmax_vector (X : externals) (item : json) (v : list Q) :
  PyVal.as_vector item = Some v -> v <> [] ->
  exists i, np_argmax X item = Ok i
            /\ (i < length v)%nat
            /\ (forallb Py.float64_exact v = true -> is_first_max v i).
Proof.
  intros Hv Hne. destruct (argmax_vector_first_max v Hne) as (i & Hi & Hmax).
  unfold np_argmax. rewrite Hv, Hi.
  destruct (forallb Py.float64_exact v).
  - exists i. split; [done |]. split; [| done].
    destruct Hmax as (x & Hx & _). by eapply lookup_lt_Some.
  - eexists. split; [done |]. split; [| done].
    destruct v; [done | simpl; lia].
Qed.

(** The comprehension over non-empty score vectors yields one position per
    vector, the first maximum where the scores are exact. *)
Lemma comprehension_argmax (X : externals) (items : list json) (vs : list (list Q)) :
  Forall2 (fun item v => PyVal.as_vector item = Some v /\ v <> []) items vs ->
  exists ids, PyVal.comprehension (np_argmax X) items = Ok ids
              /\ Forall2 (fun (v : list Q) (c : nat) =>
                             (c < length v)%nat
                             /\ (forallb Py.float64_exact v = true -> is_first_max v c))
                   vs ids.
Proof.
  induction 1 as [| item v items vs [Hv Hne] _ (ids & Hids & Hall)]; simpl.
  - exists []. by split.
  - destruct (np_argmax_vector X item v Hv Hne) as (i & Hi & Hlt & Hmax).
    exists (i :: ids). rewrite Hi, Hids.
    split; [done | by constructor].
Qed.

(** ** Prediction requests *)

(** Whatever its outcome, [predict] adds exactly its one request to the log
    and leaves the file system alone. *)
Lemma predict_world (X : externals) (instances : list json) (version : Z) (w : world) :
  (predict X instances version w).2 =
    World (fs w) (log w ++ [EvPost (predict_url version) (predict_payload instances)]).
Proof.
  unfold predict, requests_post, raise_for_status, res_json, predict_payload.
  run_monad. repeat (case_match; simplify_eq/=; try done).
Qed.

Lemma predict_post_raises (X : externals) (instances : list json) (version : Z) (w : world) e :
  ext_post X (World (fs w) (log w ++ [EvPost (predict_url version) (predict_payload instances)]))
    (predict_url version) (predict_payload instances) = Raise e ->
  (predict X instances version w).1 = Raise e.
Proof.
  intros Hpost. unfold predict, requests_post, predict_payload in *.
  run_monad. by rewrite Hpost.
Qed.

Lemma predict_error_status (X : externals) (instances : list json) (version : Z) (w : world) res :
  ext_post X (World (fs w) (log w ++ [EvPost (predict_url version) (predict_payload instances)]))
    (predict_url version) (predict_payload instances) = Ok res ->
  is_error_status (status_code res) = true ->
  (predict X instances version w).1 = Raise (HTTPError (status_code res)).
Proof.
  intros Hpost Hst. unfold predict, requests_post, raise_for_status, predict_payload in *.
  unfold is_error_status in Hst. run_monad. by rewrite Hpost, Hst.
Qed.

Lemma predict_well_formed (X : externals) (instances : list json) (version : Z) (w : world)
    res j items vs :
  ext_post X (World (fs w) (log w ++ [EvPost (predict_url version) (predict_payload instances)]))
    (predict_url version) (predict_payload instances) = Ok res ->
  is_error_status (status_code res) = false ->
  body res = Some j ->
  PyVal.getitem j "predictions" = Ok (JList items) ->
  Forall2 (fun item v => PyVal.as_vector item = Some v /\ v <> []) items vs ->
  exists ids,
    (predict X instances version w).1 = Ok ids
    /\ Forall2 (fun (v : list Q) (c : nat) =>
                   (c < length v)%nat
                   /\ (forallb Py.float64_exact v = true -> is_first_max v c)) vs ids.
Proof.
  intros Hpost Hst Hbody Hget Hvs.
  destruct (comprehension_argmax X items vs Hvs) as (ids & Hids & Hmax).
  exists ids. split; [| done].
  unfold predict, requests_post, raise_for_status, res_json, predict_payload in *.
  unfold is_error_status in Hst. run_monad.
  by rewrite Hpost, Hst, Hbody, Hget; simpl; rewrite Hids.
Qed.




(** C3, amended: [predict] raises [HTTPError] whenever the status of the
    response is a client or server error code (400 to 599); on any other
    status it returns normally provided the body is JSON with a
    ["predictions"] list of non-empty score vectors.  A success status alone
    does not keep it from raising: a body that is not JSON raises
    [JSONDecodeError], and a JSON object without ["predictions"] raises
    [KeyError]. *)
Theorem predict_raises_on_error_status
    (X : externals) (instances : list json) (version : Z) (w : world) (res : response) :
  ext_post X (World (fs w) (log w ++ [EvPost (predict_url version) (predict_payload instances)]))
    (predict_url version) (predict_payload instances) = Ok res ->
  (is_error_status (status_code res) = true ->
     (predict X instances version w).1 = Raise (HTTPError (status_code res)))
  /\ (is_error_status (status_code res) = false ->
      (forall j items vs,
         body res = Some j ->
         PyVal.getitem j "predictions" = Ok (JList items) ->
         Forall2 (fun item v => PyVal.as_vector item = Some v /\ v <> []) items vs ->
         exists ids, (predict X instances version w).1 = Ok ids)
      /\ (body res = None -> (predict X instances version w).1 = Raise JSONDecodeError)
      /\ (forall items,
            body res = Some (JObj items) ->
            Forall (fun kv : string * json => kv.1 <> "predictions") items ->
            (predict X instances version w).1 = Raise (KeyError "predictions"))).
Proof.
  intros Hpost. split.
  - by apply predict_error_status.
  - intros Hst. split; [| split].
    + intros j items vs Hbody Hget Hvs.
      destruct (predict_well_formed X instances version w res j items vs
                  Hpost Hst Hbody Hget Hvs) as (ids & Hids & _).
      by exists ids.
    + intros Hbody.
      unfold predict, requests_post, raise_for_status, res_json, predict_payload in *.
      unfold is_error_status in Hst. run_monad. by rewrite Hpost, Hst, Hbody.
    + intros items Hbody Hnone.
      apply (list_find_None (fun kv : string * json => kv.1 = "predictions")) in Hnone.
      unfold predict, requests_post, raise_for_status, res_json, predict_payload in *.
      unfold is_error_status in Hst. run_monad.
      rewrite Hpost, Hst, Hbody. simpl. by rewrite Hnone.
Qed.

Lemma predict_raises_on_error_status_witness :
  (predict (Edge.with_post (fun _ _ _ => Ok (Response 404 None)))
     [JList [JNum 0]] 1 Demo.empty).1 = Raise (HTTPError 404)
  /\ (predict (Edge.with_post (fun _ _ _ => Ok (Response 503 (Some (JObj [])))))
        [JList [JNum 0]] 1 Demo.empty).1 = Raise (HTTPError 503)
  /\ (exists ids, (predict Demo.ext [JList [JNum 0]] 1 Demo.empty).1 = Ok ids)
  /\ (predict (Edge.with_post (fun _ _ _ => Ok (Response 200 None)))
        [JList [JNum 0]] 1 Demo.empty).1 = Raise JSONDecodeError.
Proof.
  split; [| split; [| split]].
  - apply (proj1 (predict_raises_on_error_status
                    (Edge.with_post (fun _ _ _ => Ok (Response 404 None)))
                    [JList [JNum 0]] 1 Demo.empty (Response 404 None) eq_refl)).
    reflexivity.
  - apply (proj1 (predict_raises_on_error_status
                    (Edge.with_post (fun _ _ _ => Ok (Response 503 (Some (JObj [])))))
                    [JList [JNum 0]] 1 Demo.empty (Response 503 (Some (JObj []))) eq_refl)).
    reflexivity.
  - apply (proj1 (proj2 (predict_raises_on_error_status Demo.ext [JList [JNum 0]] 1
                           Demo.empty (Demo.serve (predict_payload [JList [JNum 0]]))
                           eq_refl) eq_refl)
             (JObj [("predictions", JList [Demo.scores])]) [Demo.scores]
             [[1 # 8; 5 # 8; 1 # 4]%Q]).
    + reflexivity.
    + reflexivity.
    + repeat constructor; discriminate.
  - apply (proj1 (proj2 (proj2 (predict_raises_on_error_status
                                  (Edge.with_post (fun _ _ _ => Ok (Response 200 None)))
                                  [JList [JNum 0]] 1 Demo.empty (Response 200 None)
                                  eq_refl) eq_refl))).
    reflexivity.
Defined.

(** C3 as stated fails: a response with success status 200 whose JSON body
    has no ["predictions"] key makes [predict] raise [KeyError]. *)
Lemma predict_raises_on_success_status :
  ~ (forall (X : externals) (instances : list json) (version : Z) (w : world) (res : response),
       ext_post X
         (World (fs w) (log w ++ [EvPost (predict_url version) (predict_payload instances)]))
         (predict_url version) (predict_payload instances) = Ok res ->
       ((exists e, (predict X instances version w).1 = Raise e)
        <-> is_success_status (status_code res) = false)).
Proof.
  intros H.
  destruct (H Demo.ext_no_predictions [JList [JNum 0]] 1%Z Demo.empty
              (Response 200 (Some (JObj []))) eq_refl) as [Hraise _].
  assert (is_success_status 200 = false) as Hst; [| discriminate Hst].
  apply Hraise. exists (KeyError "predictions"). reflexivity.
Qed.

(** ** Directories *)

Lemma ensure_dir_keeps (d p : string) (n : fsnode) (f : gmap string fsnode) :
  f !! p = Some n -> FS.ensure_dir d f !! p = Some n.
Proof.
  intros Hp. unfold FS.ensure_dir. destruct (f !! d) eqn:Hd; [done |].
  rewrite lookup_insert_ne; [done | congruence].
Qed.

Lemma make_dirs_keeps (d p : string) (n : fsnode) (f : gmap string fsnode) :
  f !! p = Some n -> FS.make_dirs d f !! p = Some n.
Proof.
  intros Hp. unfold FS.make_dirs.
  induction (FS.dirs_upto "" d) as [| x l IH]; simpl; [done |].
  by apply ensure_dir_keeps.
Qed.

Lemma remove_tree_under (d p : string) (f : gmap string fsnode) :
  FS.under d p = true -> FS.remove_tree d f !! p = None.
Proof.
  intros Hu. unfold FS.remove_tree. apply map_lookup_filter_None. right.
  intros n _. simpl. congruence.
Qed.

Lemma remove_tree_outside (d p : string) (f : gmap string fsnode) :
  FS.under d p = false -> FS.remove_tree d f !! p = f !! p.
Proof.
  intros Hu. unfold FS.remove_tree.
  destruct (f !! p) as [n |] eqn:Hp.
  - apply map_lookup_filter_Some. by split.
  - apply map_lookup_filter_None. by left.
Qed.

Lemma ensure_dirs_lookup (l : list string) (f : gmap string fsnode) (p : string) :
  foldr FS.ensure_dir f l !! p =
    match f !! p with
    | Some n => Some n
    | None => if decide (p ∈ l) then Some Dir else None
    end.
Proof.
  revert p. induction l as [| x l IH]; intros p; simpl.
  - destruct (f !! p); [done |].
    destruct (decide (p ∈ [])) as [Hin |]; [by apply elem_of_nil in Hin | done].
  - destruct (f !! p) as [n |] eqn:Hp.
    { apply ensure_dir_keeps. by rewrite IH, Hp. }
    destruct (decide (p = x)) as [-> | Hne].
    + rewrite decide_True by (apply elem_of_cons; by left).
      pose proof (IH x) as Hx. rewrite Hp in Hx. unfold FS.ensure_dir at 1.
      destruct (decide (x ∈ l)); rewrite Hx; [done | apply lookup_insert_eq].
    + assert (FS.ensure_dir x (foldr FS.ensure_dir f l) !! p
              = foldr FS.ensure_dir f l !! p) as ->.
      { unfold FS.ensure_dir at 1. destruct (foldr FS.ensure_dir f l !! x); [done |].
        by rewrite lookup_insert_ne. }
      rewrite IH, Hp.
      destruct (decide (p ∈ l)) as [Hin | Hout].
      * rewrite decide_True; [done | apply elem_of_cons; by right].
      * rewrite decide_False; [done |]. by intros [? | ?]%elem_of_cons.
Qed.

Lemma write_tree_lookup (root p : string) (n : fsnode) (a : artifact)
    (f : gmap string fsnode) :
  FS.write_tree root a f !! p = Some n ->
  (exists e, e ∈ a /\ p = Py.os_path_join root e.1 /\ n = e.2)
  \/ f !! p = Some n
  \/ (f !! p = None /\ n = Dir /\ p ∈ FS.dirs_upto "" root).
Proof.
  unfold FS.write_tree. induction a as [| e a IH]; simpl.
  - unfold FS.make_dirs. rewrite ensure_dirs_lookup.
    destruct (f !! p) as [m |]; [intros [= <-]; auto |].
    case_decide; [| done]. intros [= <-]. auto.
  - destruct (decide (Py.os_path_join root e.1 = p)) as [<- | Hne].
    + rewrite lookup_insert_eq. intros [= <-]. left. exists e. split; [by left | done].
    + rewrite lookup_insert_ne by done. intros Hp.
      destruct (IH Hp) as [(e' & He' & Hpath & Hn) | Hrest]; [| by right].
      left. exists e'. split; [by right | done].
Qed.

(** The first entry of an exported tree for a path is the one found there. *)
Lemma write_tree_entry (root rel : string) (n : fsnode) (pre post : artifact)
    (f : gmap string fsnode) :
  Forall (fun e : string * fsnode =>
            Py.os_path_join root e.1 <> Py.os_path_join root rel) pre ->
  FS.write_tree root (pre ++ (rel, n) :: post) f !! Py.os_path_join root rel = Some n.
Proof.
  unfold FS.write_tree. induction 1 as [| e pre He _ IH]; simpl.
  - apply lookup_insert_eq.
  - by rewrite lookup_insert_ne.
Qed.


(** ** Copies *)








(** ** Graph optimisation *)

(** The complete behaviour of [optimize_graph], by the answers of the tools. *)
Lemma optimize_graph_run (X : externals) (w : world)
    (model_dir graph_filename : string) (transforms : list string) :
  let path := Py.os_path_join model_dir graph_filename in
  let read := EvGetGraphDefFromFile path in
  optimize_graph X model_dir graph_filename transforms w =
    match ext_get_graph_def_from_file X (fs w) path with
    | Raise e => (Raise e, World (fs w) (log w ++ [read]))
    | Ok g =>
        let call := EvTransformGraph g [] ["softmax/Softmax"] transforms in
        match ext_TransformGraph X (World (fs w) (log w ++ [read; call]))
                g [] ["softmax/Softmax"] transforms with
        | Raise e => (Raise e, World (fs w) (log w ++ [read; call]))
        | Ok g' =>
            (Ok tt,
             World (<[Py.os_path_join model_dir "optimised_model.pb" := File (ext_serialize X g')]>
                      (FS.make_dirs model_dir (fs w)))
                   (log w ++ [read; call;
                              EvWriteGraph g' model_dir false "optimised_model.pb";
                              EvPrint "Freezed graph optimised!" []]))
        end
    end.
Proof.
  intros path read.
  unfold optimize_graph, get_graph_def_from_file, TransformGraph, write_graph.
  run_monad. fold path. fold read.
  destruct (ext_get_graph_def_from_file X (fs w) path) as [g | e]; simpl; [| done].
  rewrite <- !app_assoc. simpl.
  destruct (ext_TransformGraph X _ g [] ["softmax/Softmax"] transforms) as [g' | e];
    simpl; [| done].
  by rewrite <- !app_assoc.
Qed.

(** C1, amended: the pass list [optimize_graph] hands to the graph-transform
    tool is its own [transforms] argument, unchanged, next to the fixed
    input names [[]] and output names [["softmax/Softmax"]]; the tool is
    called once when the graph file can be read and not at all otherwise.
    The notebook's one call passes the fixed list of nine passes. *)
Theorem optimize_graph_forwards_transforms (X : externals) (w : world)
    (model_dir graph_filename : string) (passes : list string) :
  transform_calls (new_events (optimize_graph X model_dir graph_filename passes) w) =
    match ext_get_graph_def_from_file X (fs w) (Py.os_path_join model_dir graph_filename) with
    | Ok g => [(g, [], ["softmax/Softmax"], passes)]
    | Raise _ => []
    end
  /\ transform_calls (new_events (optimize_cell X model_dir) w) =
       match ext_get_graph_def_from_file X (fs w) (Py.os_path_join model_dir "freezed_model.pb") with
       | Ok g => [(g, [], ["softmax/Softmax"],
                   [ "remove_nodes(op=Identity)"; "fold_constants(ignore_errors=true)";
                     "fold_batch_norms"; "fuse_resize_pad_and_conv"; "quantize_weights";
                     "quantize_nodes"; "merge_duplicate_nodes"; "strip_unused_nodes";
                     "sort_by_execution_order" ])]
       | Raise _ => []
       end.
Proof.
  assert (forall f ts,
    transform_calls (new_events (optimize_graph X model_dir f ts) w) =
      match ext_get_graph_def_from_file X (fs w) (Py.os_path_join model_dir f) with
      | Ok g => [(g, [], ["softmax/Softmax"], ts)]
      | Raise _ => []
      end) as Hcalls.
  { intros f ts.
    pose proof (optimize_graph_run X w model_dir f ts) as Hrun. simpl in Hrun.
    destruct (ext_get_graph_def_from_file X (fs w) (Py.os_path_join model_dir f)) as [g | e].
    - destruct (ext_TransformGraph X _ g [] ["softmax/Softmax"] ts) as [g' | e];
        erewrite new_events_app by (rewrite Hrun; reflexivity); reflexivity.
    - erewrite new_events_app by (rewrite Hrun; reflexivity). reflexivity. }
  split; [apply Hcalls |]. unfold optimize_cell. apply Hcalls.
Qed.

(** C1 as stated fails: called with another pass list, [optimize_graph]
    hands the tool that list and not the notebook's fixed one. *)
Lemma optimize_graph_passes_chosen_by_caller :
  ~ (exists fixed : list string,
       forall (X : externals) (w : world) (model_dir graph_filename : string)
              (passes : list string),
         Forall (fun call => call.2 = fixed)
           (transform_calls (new_events (optimize_graph X model_dir graph_filename passes) w))).
Proof.
  intros [fixed H].
  pose proof (H Demo.ext Demo.frozen "/m" "freezed_model.pb" []) as H0.
  pose proof (H Demo.ext Demo.frozen "/m" "freezed_model.pb" ["quantize_weights"]) as H1.
  vm_compute in H0, H1.
  apply Forall_cons in H0 as [H0 _]. apply Forall_cons in H1 as [H1 _].
  congruence.
Qed.




(** ** The overwrite guard *)

Lemma overwrite_guard_run (d : string) (w : world) :
  (b ← gfile_Exists d;
   if b : bool then gfile_DeleteRecursively d else mret tt) w = (Ok tt, after_guard d w).
Proof.
  unfold gfile_Exists, gfile_DeleteRecursively, after_guard. run_monad.
  destruct (FS.exists_ d (fs w)) eqn:Hex; simpl; [| done].
  rewrite Hex. simpl. by rewrite <- app_assoc.
Qed.

Lemma convert_graph_def_to_saved_model_run (X : externals) (path d : string) (w : world) :
  convert_graph_def_to_saved_model X path d w = convert_after_guard X path d (after_guard d w).
Proof.
  pose proof (overwrite_guard_run d w) as Hguard.
  unfold convert_graph_def_to_saved_model, convert_after_guard.
  unfold get_graph_def_from_file, simple_save.
  unfold mbind at 1. unfold M_bind at 1. unfold bind at 1.
  unfold mbind at 1 in Hguard. unfold M_bind at 1 in Hguard. unfold bind at 1 in Hguard.
  destruct (gfile_Exists d w) as [[b | e] wb].
  - unfold mbind at 1. unfold M_bind at 1. unfold bind at 1.
    rewrite Hguard. generalize (after_guard d w). intros w0.
    run_monad.
    destruct (ext_get_graph_def_from_file X (fs w0) path) as [g | e]; simpl; [| done].
    destruct (ext_import_graph_def X g) as [[] | e]; simpl; [| done].
    destruct (placeholder_inputs X g g ∅) as [inputs | e]; simpl; [| done].
    destruct (get_tensor_by_name X g "softmax/Softmax:0") as [softmax | e]; simpl; [| done].
    rewrite <- !app_assoc. simpl.
    destruct (ext_simple_save X _ d inputs _) as [tree | e]; simpl; [| done].
    by rewrite <- !app_assoc.
  - discriminate Hguard.
Qed.

Lemma export_cell_run (X : externals) (w : world) :
  export_cell X w = export_savedmodel X export_dir (after_guard export_dir w).
Proof.
  pose proof (overwrite_guard_run export_dir w) as Hguard.
  unfold export_cell.
  unfold mbind at 1. unfold M_bind at 1. unfold bind at 1.
  unfold mbind at 1 in Hguard. unfold M_bind at 1 in Hguard. unfold bind at 1 in Hguard.
  destruct (gfile_Exists export_dir w) as [[b | e] wb].
  - unfold mbind at 1. unfold M_bind at 1. unfold bind at 1. by rewrite Hguard.
  - discriminate Hguard.
Qed.

Lemma convert_after_guard_events (X : externals) (path d : string) (w0 : world) :
  exists rest,
    log (convert_after_guard X path d w0).2 = log w0 ++ EvGetGraphDefFromFile path :: rest
    /\ deletes rest = []
    /\ (save_calls rest = []
        \/ exists g inputs softmax,
             ext_get_graph_def_from_file X (fs w0) path = Ok g
             /\ placeholder_inputs X g g ∅ = Ok inputs
             /\ get_tensor_by_name X g "softmax/Softmax:0" = Ok softmax
             /\ save_calls rest = [(d, inputs, {["softmax" := softmax]})]).
Proof.
  unfold convert_after_guard.
  destruct (ext_get_graph_def_from_file X (fs w0) path) as [g | e]; simpl;
    [| exists []; auto].
  destruct (ext_import_graph_def X g) as [[] | e]; simpl; [| exists []; auto].
  destruct (placeholder_inputs X g g ∅) as [inputs | e] eqn:Hin; simpl;
    [| exists []; auto].
  destruct (get_tensor_by_name X g "softmax/Softmax:0") as [softmax | e] eqn:Hout; simpl;
    [| exists []; auto].
  destruct (ext_simple_save X _ d inputs _) as [tree | e]; simpl.
  - eexists [_; _]. repeat split. right. by exists g, inputs, softmax.
  - eexists [_]. repeat split. right. by exists g, inputs, softmax.
Qed.

Lemma export_savedmodel_events (X : externals) (base : string) (w0 : world) :
  log (export_savedmodel X base w0).2 = log w0 ++ [EvExportSavedModel base].
Proof.
  unfold export_savedmodel. run_monad.
  by destruct (ext_export_savedmodel X _ base) as [r | e].
Qed.

(** C2: both directory-writing operations, the export cell and
    [convert_graph_def_to_saved_model], are the overwrite guard followed by a
    computation that issues no deletion and does all the writing.  The guard
    never raises; when the target exists it logs one recursive deletion and
    leaves nothing at or below the target (and everything else as it was);
    when the target is missing it logs the existence test only and changes
    nothing, whereas the deletion alone would raise there. *)
Theorem overwrite_guard_deletes_existing_target (X : externals) (graph_filepath d : string) :
  (forall t w,
      (b ← gfile_Exists t;
       if b : bool then gfile_DeleteRecursively t else mret tt) w = (Ok tt, after_guard t w))
  /\ (forall t w,
        FS.exists_ t (fs w) = false ->
        (gfile_DeleteRecursively t w).1 = Raise (NotFoundError OpDelete t))
  /\ (exists k : M unit,
      (forall w, convert_graph_def_to_saved_model X graph_filepath d w = k (after_guard d w))
      /\ (forall w0, deletes (new_events k w0) = []))
  /\ (exists k : M string,
      (forall w, export_cell X w = k (after_guard export_dir w))
      /\ (forall w0, new_events k w0 = [EvExportSavedModel export_dir]))
  /\ (forall t w,
        (FS.exists_ t (fs w) = true ->
           log (after_guard t w) = log w ++ [EvExists t; EvDeleteRecursively t]
           /\ (forall p, FS.under t p = true -> fs (after_guard t w) !! p = None)
           /\ (forall p, FS.under t p = false -> fs (after_guard t w) !! p = fs w !! p))
        /\ (FS.exists_ t (fs w) = false ->
           after_guard t w = World (fs w) (log w ++ [EvExists t]))).
Proof.
  split; [exact overwrite_guard_run |]. split.
  { intros t w Hex. unfold gfile_DeleteRecursively. run_monad. by rewrite Hex. }
  split; [| split].
  - exists (convert_after_guard X graph_filepath d). split.
    + apply convert_graph_def_to_saved_model_run.
    + intros w0.
      destruct (convert_after_guard_events X graph_filepath d w0) as (rest & Hlog & Hdel & _).
      by rewrite (new_events_app _ _ _ Hlog).
  - exists (export_savedmodel X export_dir). split.
    + apply export_cell_run.
    + intros w0. apply new_events_app, export_savedmodel_events.
  - intros t w. unfold after_guard. split; intros ->; simpl; [| done].
    split; [done |]. split; intros p Hp.
    + by apply remove_tree_under.
    + by apply remove_tree_outside.
Qed.

Lemma overwrite_guard_deletes_existing_target_witness :
  log (after_guard "/m" Demo.frozen) = [EvExists "/m"; EvDeleteRecursively "/m"]
  /\ (forall p, FS.under "/m" p = true -> fs (after_guard "/m" Demo.frozen) !! p = None)
  /\ (forall p, FS.under "/m" p = false ->
        fs (after_guard "/m" Demo.frozen) !! p = fs Demo.frozen !! p).
Proof.
  apply (overwrite_guard_deletes_existing_target Demo.ext "/m/freezed_model.pb" "/m").
  reflexivity.
Defined.

(** ** Conversion to a SavedModel *)

Lemma placeholder_inputs_lookup (X : externals) (g nodes : graph_def) (d : gmap string string) :
  (forall node, node ∈ nodes -> node_op node = "Placeholder" ->
                ext_has_tensor X g (node_name node +:+ ":0") = true) ->
  exists inputs,
    placeholder_inputs X g nodes d = Ok inputs
    /\ forall k,
         inputs !! k =
           if existsb (fun node => bool_decide (node_op node = "Placeholder"
                                               /\ node_name node = k)) nodes
           then Some (k +:+ ":0") else d !! k.
Proof.
  revert d. induction nodes as [| node nodes IH]; intros d Hall; simpl.
  - by exists d.
  - assert (forall n, n ∈ nodes -> node_op n = "Placeholder" ->
                      ext_has_tensor X g (node_name n +:+ ":0") = true) as Hrest.
    { intros n Hn. apply Hall. by right. }
    case_bool_decide as Hop.
    + unfold get_tensor_by_name. rewrite (Hall node) by (done || by left).
      destruct (IH (<[node_name node := node_name node +:+ ":0"]> d) Hrest)
        as (inputs & Hin & Hlook).
      exists inputs. split; [done |]. intros k. rewrite Hlook.
      destruct (existsb _ nodes); [by rewrite orb_true_r |].
      rewrite orb_false_r. case_bool_decide as Hk.
      * destruct Hk as [_ <-]. by rewrite lookup_insert_eq.
      * rewrite lookup_insert_ne; [done |]. intros <-. by apply Hk.
    + destruct (IH d Hrest) as (inputs & Hin & Hlook).
      exists inputs. split; [done |]. intros k. rewrite Hlook.
      case_bool_decide as Hk; [by destruct Hk |]. done.
Qed.

(** C5, amended: when the graph file is read and imported and the tensors
    looked up exist, [convert_graph_def_to_saved_model] makes one export
    call whose outputs are the fixed [{"softmax": "softmax/Softmax:0"}] and
    whose inputs are taken from the graph: one entry per node of type
    [Placeholder], keyed by the node's name and bound to the tensor
    ["<name>:0"]. *)
Theorem convert_inputs_from_placeholders_fixed_output
    (X : externals) (w : world) (graph_filepath d : string) (g : graph_def) :
  ext_get_graph_def_from_file X (fs (after_guard d w)) graph_filepath = Ok g ->
  ext_import_graph_def X g = Ok tt ->
  (forall node, node ∈ g -> node_op node = "Placeholder" ->
                ext_has_tensor X g (node_name node +:+ ":0") = true) ->
  ext_has_tensor X g "softmax/Softmax:0" = true ->
  exists inputs,
    save_calls (new_events (convert_graph_def_to_saved_model X graph_filepath d) w) =
      [(d, inputs, {["softmax" := "softmax/Softmax:0"]})]
    /\ forall k t,
         inputs !! k = Some t <->
         t = k +:+ ":0"
         /\ exists node, node ∈ g /\ node_op node = "Placeholder" /\ node_name node = k.
Proof.
  intros Hread Himport Hin Hout.
  destruct (placeholder_inputs_lookup X g g ∅ Hin) as (inputs & Hinputs & Hlook).
  exists inputs. split.
  - unfold new_events. rewrite convert_graph_def_to_saved_model_run.
    assert (length (log w) <= length (log (after_guard d w)))%nat as Hlen.
    { unfold after_guard. destruct (FS.exists_ d (fs w)); simpl; rewrite length_app; lia. }
    assert (save_calls (drop (length (log w)) (log (after_guard d w))) = []) as Hguard.
    { unfold after_guard.
      destruct (FS.exists_ d (fs w)); simpl; by rewrite drop_app_length. }
    unfold convert_after_guard. rewrite Hread, Himport, Hinputs.
    unfold get_tensor_by_name. rewrite Hout.
    clear Hread. set (w0 := after_guard d w) in *. clearbody w0.
    destruct (ext_simple_save X _ d inputs _) as [tree | e]; simpl;
      rewrite drop_app_le by exact Hlen;
      unfold save_calls in *; rewrite omap_app, Hguard; reflexivity.
  - intros k t. rewrite Hlook, lookup_empty.
    destruct (existsb _ g) eqn:Hex.
    + apply existsb_exists in Hex as (node & Hnode & Hdec).
      apply bool_decide_eq_true in Hdec as [Hop Hname].
      split.
      * intros [= <-]. split; [done |]. exists node.
        by rewrite list_elem_of_In.
      * by intros [-> _].
    + split; [done |]. intros [_ (node & Hnode & Hop & Hname)].
      assert (existsb (fun node => bool_decide (node_op node = "Placeholder"
                                               /\ node_name node = k)) g = true) as Hc.
      { apply existsb_exists. exists node. split; [by apply list_elem_of_In |].
        by apply bool_decide_eq_true. }
      congruence.
Qed.

Lemma convert_inputs_from_placeholders_fixed_output_witness :
  exists inputs,
    save_calls (new_events (convert_graph_def_to_saved_model Demo.ext
                              "/m/freezed_model.pb" "/serving/mnist/2") Demo.frozen) =
      [("/serving/mnist/2", inputs, {["softmax" := "softmax/Softmax:0"]})]
    /\ forall k t,
         inputs !! k = Some t <->
         t = k +:+ ":0"
         /\ exists node, node ∈ Demo.graph_of "serving_input_image"
                         /\ node_op node = "Placeholder" /\ node_name node = k.
Proof.
  apply (convert_inputs_from_placeholders_fixed_output Demo.ext Demo.frozen
           "/m/freezed_model.pb" "/serving/mnist/2" (Demo.graph_of "serving_input_image")).
  - reflexivity.
  - reflexivity.
  - reflexivity.
  - reflexivity.
Defined.

(** C5 as stated fails: two graph files with differently named placeholders
    make the export call receive different inputs. *)
Lemma convert_inputs_depend_on_graph :
  ~ (exists fixed_inputs fixed_outputs : gmap string string,
       forall (X : externals) (w : world) (graph_filepath d : string),
         Forall (fun call => call.1.2 = fixed_inputs /\ call.2 = fixed_outputs)
           (save_calls (new_events (convert_graph_def_to_saved_model X graph_filepath d) w))).
Proof.
  intros (fixed_inputs & fixed_outputs & H).
  pose proof (H Demo.ext Demo.frozen "/m/freezed_model.pb" "/serving/mnist/2") as H0.
  pose proof (H Demo.ext Demo.frozen "/m/optimised_model.pb" "/serving/mnist/3") as H1.
  assert (save_calls (new_events (convert_graph_def_to_saved_model Demo.ext
                                    "/m/freezed_model.pb" "/serving/mnist/2") Demo.frozen)
          = [("/serving/mnist/2", {["serving_input_image" := "serving_input_image:0"]},
              {["softmax" := "softmax/Softmax:0"]})]) as E0 by (vm_compute; reflexivity).
  assert (save_calls (new_events (convert_graph_def_to_saved_model Demo.ext
                                    "/m/optimised_model.pb" "/serving/mnist/3") Demo.frozen)
          = [("/serving/mnist/3", {["input_image" := "input_image:0"]},
              {["softmax" := "softmax/Softmax:0"]})]) as E1 by (vm_compute; reflexivity).
  rewrite E0 in H0. rewrite E1 in H1.
  apply Forall_cons in H0 as [[H0 _] _]. apply Forall_cons in H1 as [[H1 _] _].
  simpl in H0, H1. rewrite <- H1 in H0.
  apply (f_equal (fun m : gmap string string => m !! "input_image")) in H0.
  vm_compute in H0. discriminate H0.
Qed.

(** ** Benchmarking *)

Lemma bind_ok {A B} (c : M A) (k : A -> M B) (w w' : world) (a : A) :
  c w = (Ok a, w') -> (c ≫= k) w = k a w'.
Proof. intros H. unfold mbind, M_bind, bind. by rewrite H. Qed.

Lemma bind_raise {A B} (c : M A) (k : A -> M B) (w w' : world) (e : exn) :
  c w = (Raise e, w') -> (c ≫= k) w = (Raise e, w').
Proof. intros H. unfold mbind, M_bind, bind. by rewrite H. Qed.

Lemma predict_pair (X : externals) (instances : list json) (version : Z) (w : world) :
  predict X instances version w =
    ((predict X instances version w).1,
     after_posts w (EvPost (predict_url version) (predict_payload instances)) 1).
Proof.
  unfold after_posts. simpl.
  rewrite <- (predict_world X instances version w).
  by destruct (predict X instances version w).
Qed.

Lemma after_posts_0 (w : world) (post : event) : after_posts w post 0 = w.
Proof. unfold after_posts. simpl. rewrite app_nil_r. by destruct w. Qed.

Lemma after_posts_S (w : world) (post : event) (k : nat) :
  after_posts (after_posts w post 1) post k = after_posts w post (S k).
Proof. unfold after_posts. simpl. by rewrite <- app_assoc. Qed.

(** The loop either gets an answer to each of its [n] requests, or stops at
    the first request that raises, with that exception. *)
Lemma timed_requests_outcome (X : externals) (instances : list json) (version : Z) :
  let post := EvPost (predict_url version) (predict_payload instances) in
  forall (n : nat) (output : option (list nat)) (w : world),
    (exists output',
        timed_requests X n instances version output w = (Ok output', after_posts w post n)
        /\ (forall k, (k < n)%nat ->
              exists o, (predict X instances version (after_posts w post k)).1 = Ok o)
        /\ (n = O -> output' = output)
        /\ ((0 < n)%nat -> exists o, output' = Some o))
    \/ (exists e k,
          (k < n)%nat
          /\ timed_requests X n instances version output w = (Raise e, after_posts w post (S k))
          /\ (predict X instances version (after_posts w post k)).1 = Raise e
          /\ (forall j, (j < k)%nat ->
                exists o, (predict X instances version (after_posts w post j)).1 = Ok o)).
Proof.
  intros post n. induction n as [| n IH]; intros output w.
  - left. exists output. simpl. rewrite after_posts_0.
    repeat split; [intros k Hk; lia | intros Hn; lia].
  - simpl. pose proof (predict_pair X instances version w) as Hp. fold post in Hp.
    destruct ((predict X instances version w).1) as [o | e] eqn:Hres.
    + rewrite (bind_ok _ _ _ _ _ Hp).
      destruct (IH (Some o) (after_posts w post 1))
        as [(output' & Hrun & Hall & H0 & Hpos) | (e & k & Hk & Hrun & Hfail & Hbefore)].
      * left. exists output'. rewrite after_posts_S in Hrun.
        split; [exact Hrun |]. split; [| split].
        -- intros [| k] Hk.
           ++ exists o. by rewrite after_posts_0.
           ++ rewrite <- after_posts_S. apply Hall. lia.
        -- intros Hn. lia.
        -- intros _. destruct n as [| n'].
           ++ exists o. by apply H0.
           ++ apply Hpos. lia.
      * right. exists e, (S k). rewrite !after_posts_S in *.
        split; [lia |]. split; [exact Hrun |]. split; [exact Hfail |].
        intros [| j] Hj.
        -- exists o. by rewrite after_posts_0.
        -- rewrite <- after_posts_S. apply Hbefore. lia.
    + right. exists e, O. rewrite (bind_raise _ _ _ _ _ Hp).
      split; [lia |]. split; [done |]. rewrite after_posts_0.
      split; [done |]. intros j Hj. lia.
Qed.

Lemma print_run (fmt : string) (args : list fmtarg) (w : world) :
  print fmt args w = (Ok tt, World (fs w) (log w ++ [EvPrint fmt args])).
Proof. reflexivity. Qed.

Lemma utcnow_run (X : externals) (w : world) :
  utcnow X w = (Ok (ext_utcnow X w), World (fs w) (log w ++ [EvUtcNow (ext_utcnow X w)])).
Proof. reflexivity. Qed.

Lemma print_run_acc (fmt : string) (args : list fmtarg)
    (f : gmap string fsnode) (l L : list event) :
  print fmt args (World f (l ++ L)) = (Ok tt, World f (l ++ L ++ [EvPrint fmt args])).
Proof. unfold print, emit. simpl. by rewrite <- app_assoc. Qed.

Lemma utcnow_run_acc (X : externals) (f : gmap string fsnode) (l L : list event) :
  utcnow X (World f (l ++ L)) =
    (Ok (ext_utcnow X (World f (l ++ L))),
     World f (l ++ L ++ [EvUtcNow (ext_utcnow X (World f (l ++ L)))])).
Proof. rewrite utcnow_run. simpl. by rewrite <- app_assoc. Qed.

Lemma benchmark_inference_outcome (X : externals) (w : world) (version batch repeat : Z)
    (instances : list json) :
  collect_instances X 0 (Z.to_nat batch) [] = Ok instances ->
  let n := Z.to_nat repeat in
  let warm := EvPost (predict_url version) (predict_payload (take 1 instances)) in
  let post := EvPost (predict_url version) (predict_payload instances) in
  let started :=
    [warm; EvPrint "Warm up request performed!" []; EvPrint "Timer started..." []] in
  let t0 := ext_utcnow X (World (fs w) (log w ++ started)) in
  let ws := World (fs w) (log w ++ started ++ [EvUtcNow t0]) in
  let t1 := ext_utcnow X (after_posts ws post n) in
  let elapsed := (t1 - t0)%Q in
  let timed :=
    started ++ [EvUtcNow t0] ++ replicate n post
      ++ [EvUtcNow t1; EvPrint "Inference elapsed time: {} seconds\n" [FSeconds elapsed]] in
  (exists e,
      (predict X (take 1 instances) version w).1 = Raise e
      /\ benchmark_inference X version batch repeat w = (Raise e, World (fs w) (log w ++ [warm])))
  \/ (exists e k,
        (k < n)%nat
        /\ (predict X instances version (after_posts ws post k)).1 = Raise e
        /\ (forall j, (j < k)%nat ->
              exists o, (predict X instances version (after_posts ws post j)).1 = Ok o)
        /\ benchmark_inference X version batch repeat w =
             (Raise e, World (fs w) (log w ++ started ++ [EvUtcNow t0] ++ replicate (S k) post)))
  \/ ((forall k, (k < n)%nat ->
         exists o, (predict X instances version (after_posts ws post k)).1 = Ok o)
      /\ ((exists len first,
              (0 < repeat)%Z
              /\ benchmark_inference X version batch repeat w =
                   (Ok tt, World (fs w)
                             (log w ++ timed ++ closing_reports len repeat elapsed first)))
          \/ (exists e tail,
                posts tail = []
                /\ benchmark_inference X version batch repeat w =
                     (Raise e, World (fs w) (log w ++ timed ++ tail))))).
Proof.
  intros Hcollect n warm post started t0 ws t1 elapsed timed.
  unfold benchmark_inference.
  rewrite (bind_ok _ _ w w instances) by (unfold lift; by rewrite Hcollect).
  pose proof (predict_pair X (take 1 instances) version w) as Hwarm.
  destruct ((predict X (take 1 instances) version w).1) as [o1 | e] eqn:Hres; cycle 1.
  { left. exists e. split; [done |]. by rewrite (bind_raise _ _ _ _ _ Hwarm). }
  right.
  change (after_posts w _ 1) with (World (fs w) (log w ++ [warm])) in Hwarm.
  rewrite (bind_ok _ _ _ _ _ Hwarm).
  rewrite (bind_ok _ _ _ _ _ (print_run_acc _ _ _ _ _)). cbn [app].
  rewrite (bind_ok _ _ _ _ _ (print_run_acc _ _ _ _ _)). cbn [app].
  rewrite (bind_ok _ _ _ _ _ (utcnow_run_acc _ _ _ _)). cbn [app].
  change (ext_utcnow X {| fs := fs w; log := log w ++ started |}) with t0.
  change {| fs := fs w; log := log w ++ [warm; _; _; EvUtcNow t0] |} with ws.
  destruct (timed_requests_outcome X instances version n None ws)
    as [(output & Hrun & Hall & Hnone & Hsome) | (e & k & Hk & Hrun & Hfail & Hbefore)];
    fold post in Hrun.
  2: { left. exists e, k. split; [done |]. split; [done |]. split; [done |].
       fold n. rewrite (bind_raise _ _ _ _ _ Hrun).
       unfold after_posts, ws. cbn [fs log]. by rewrite <- app_assoc. }
  right. split; [exact Hall |].
  fold n. rewrite (bind_ok _ _ _ _ _ Hrun).
  rewrite (bind_ok _ _ _ _ _ (utcnow_run _ _)).
  change (ext_utcnow X (after_posts ws post n)) with t1.
  rewrite (bind_ok _ _ _ _ _ (print_run _ _ _)).
  assert (n <> O -> (0 < repeat)%Z /\ bool_decide (repeat = 0%Z) = false) as Hrepeat.
  { intros Hn. assert (0 < repeat)%Z as Hpos by lia. split; [done |].
    apply bool_decide_eq_false. lia. }
  assert (forall tail,
    {| fs := fs w; log := ((log (after_posts ws post n) ++ [EvUtcNow t1])
                           ++ [EvPrint "Inference elapsed time: {} seconds\n"
                                 [FSeconds elapsed]]) ++ tail |}
    = {| fs := fs w; log := log w ++ timed ++ tail |}) as Hlog.
  { intros tail. f_equal. unfold timed, after_posts, ws. cbn [fs log].
    rewrite <- !app_assoc. reflexivity. }
  destruct output as [[| c o] |].
  - right. exists (IndexError "list index out of range").
    exists [EvPrint "Prediction produced for {} instances batch, repeated {} times"
              [FInt 0; FInt repeat];
            EvPrint "Average latency per batch: {} seconds"
              [FSeconds (elapsed / inject_Z repeat)%Q]].
    split; [reflexivity |].
    destruct Hrepeat as [_ Hne]; [intros Hn; by specialize (Hnone Hn) |].
    unfold mbind, M_bind, bind, mret, M_ret, ret, raise, print, emit. rewrite Hne.
    cbn [fs log]. rewrite <- Hlog. by rewrite <- !app_assoc.
  - left. exists (Z.of_nat (length (c :: o))), c.
    destruct Hrepeat as [Hpos Hne]; [intros Hn; by specialize (Hnone Hn) |].
    split; [exact Hpos |].
    unfold mbind, M_bind, bind, mret, M_ret, ret, raise, print, emit. rewrite Hne.
    cbn [fs log]. rewrite <- Hlog. unfold closing_reports. by rewrite <- !app_assoc.
  - right. exists (TypeError "object of type 'NoneType' has no len()"), [].
    split; [reflexivity |].
    unfold mbind, M_bind, bind, mret, M_ret, ret, raise.
    cbn [fs log]. rewrite <- Hlog. by rewrite app_nil_r.
Qed.

(** The loop stops at the first request that raises, with its exception. *)
Lemma timed_requests_first_failure (X : externals) (instances : list json) (version : Z) :
  let post := EvPost (predict_url version) (predict_payload instances) in
  forall (n : nat) (output : option (list nat)) (w : world) (e : exn) (k : nat),
    (k < n)%nat ->
    (predict X instances version (after_posts w post k)).1 = Raise e ->
    (forall j, (j < k)%nat ->
       exists o, (predict X instances version (after_posts w post j)).1 = Ok o) ->
    timed_requests X n instances version output w = (Raise e, after_posts w post (S k)).
Proof.
  intros post n. induction n as [| n IH]; intros output w e k Hk Hfail Hbefore; [lia |].
  simpl. pose proof (predict_pair X instances version w) as Hp. fold post in Hp.
  destruct k as [| k].
  - rewrite after_posts_0 in Hfail. rewrite Hfail in Hp.
    by rewrite (bind_raise _ _ _ _ _ Hp).
  - destruct (Hbefore O) as [o Ho]; [lia |]. rewrite after_posts_0 in Ho.
    rewrite Ho in Hp. rewrite (bind_ok _ _ _ _ _ Hp).
    rewrite <- (after_posts_S w post (S k)). apply IH.
    + lia.
    + by rewrite after_posts_S.
    + intros j Hj. rewrite after_posts_S. apply Hbefore. lia.
Qed.

(** When every request is answered, the loop ends with the answer to the
    last one, or with the initial [output] when it does not run at all. *)
Lemma timed_requests_all_answered (X : externals) (instances : list json) (version : Z) :
  let post := EvPost (predict_url version) (predict_payload instances) in
  forall (n : nat) (output : option (list nat)) (w : world),
    (forall k, (k < n)%nat ->
       exists o, (predict X instances version (after_posts w post k)).1 = Ok o) ->
    exists output',
      timed_requests X n instances version output w = (Ok output', after_posts w post n)
      /\ match n with
         | O => output' = output
         | S m => exists o, (predict X instances version (after_posts w post m)).1 = Ok o
                            /\ output' = Some o
         end.
Proof.
  intros post n. induction n as [| n IH]; intros output w Hall.
  - exists output. simpl. by rewrite after_posts_0.
  - simpl. pose proof (predict_pair X instances version w) as Hp. fold post in Hp.
    destruct (Hall O) as [o Ho]; [lia |]. rewrite after_posts_0 in Ho.
    rewrite Ho in Hp. rewrite (bind_ok _ _ _ _ _ Hp).
    destruct (IH (Some o) (after_posts w post 1)) as (output' & Hrun & Hlast).
    { intros k Hk. rewrite after_posts_S. apply Hall. lia. }
    rewrite after_posts_S in Hrun. exists output'. split; [exact Hrun |].
    destruct n as [| m].
    + exists o. rewrite after_posts_0. by split.
    + destruct Hlast as (o' & Ho' & ->). rewrite after_posts_S in Ho'. by exists o'.
Qed.

(** C7: [benchmark_inference] sends its timed requests in a loop of exactly
    [repeat] iterations, reads the clock immediately before and after that
    loop, and reports the difference as the elapsed time and the difference
    divided by [repeat] as the average latency per batch.  There is no
    retry and no handling of errors: a warm-up that raises ends the
    benchmark with that exception after one request; otherwise the first
    timed request that raises, the [k+1]-th, ends it with that exception
    after [k+1] timed requests, nothing being timed or reported; and when
    all [repeat >= 1] timed requests are answered, the elapsed time and the
    average are reported and the call returns normally, unless the last
    answer holds no prediction, in which case [output[0]] raises after the
    average.  With no iteration at all, [len(output)] raises after the
    elapsed time. *)
Theorem benchmark_inference_fixed_loop_no_retry
    (X : externals) (w : world) (version batch repeat : Z) :
  (forall e,
     collect_instances X 0 (Z.to_nat batch) [] = Raise e ->
     benchmark_inference X version batch repeat w = (Raise e, w))
  /\ (forall instances,
      collect_instances X 0 (Z.to_nat batch) [] = Ok instances ->
      let n := Z.to_nat repeat in
      let warm := EvPost (predict_url version) (predict_payload (take 1 instances)) in
      let post := EvPost (predict_url version) (predict_payload instances) in
      let started :=
        [warm; EvPrint "Warm up request performed!" []; EvPrint "Timer started..." []] in
      let t0 := ext_utcnow X (World (fs w) (log w ++ started)) in
      let ws := World (fs w) (log w ++ started ++ [EvUtcNow t0]) in
      let t1 := ext_utcnow X (after_posts ws post n) in
      let elapsed := (t1 - t0)%Q in
      let timed :=
        started ++ [EvUtcNow t0] ++ replicate n post
          ++ [EvUtcNow t1; EvPrint "Inference elapsed time: {} seconds\n" [FSeconds elapsed]] in
      (forall e,
         (predict X (take 1 instances) version w).1 = Raise e ->
         benchmark_inference X version batch repeat w =
           (Raise e, World (fs w) (log w ++ [warm])))
      /\ (forall o1,
            (predict X (take 1 instances) version w).1 = Ok o1 ->
            (forall e k,
               (k < n)%nat ->
               (predict X instances version (after_posts ws post k)).1 = Raise e ->
               (forall j, (j < k)%nat ->
                  exists o, (predict X instances version (after_posts ws post j)).1 = Ok o) ->
               benchmark_inference X version batch repeat w =
                 (Raise e,
                  World (fs w) (log w ++ started ++ [EvUtcNow t0] ++ replicate (S k) post)))
            /\ ((forall k, (k < n)%nat ->
                   exists o, (predict X instances version (after_posts ws post k)).1 = Ok o) ->
                (n = O ->
                   benchmark_inference X version batch repeat w =
                     (Raise (TypeError "object of type 'NoneType' has no len()"),
                      World (fs w) (log w ++ timed)))
                /\ (forall m o,
                      n = S m ->
                      (predict X instances version (after_posts ws post m)).1 = Ok o ->
                      benchmark_inference X version batch repeat w =
                        match o with
                        | c :: _ =>
                            (Ok tt,
                             World (fs w)
                               (log w ++ timed
                                  ++ closing_reports (Z.of_nat (length o)) repeat elapsed c))
                        | [] =>
                            (Raise (IndexError "list index out of range"),
                             World (fs w)
                               (log w ++ timed
                                  ++ [ EvPrint "Prediction produced for {} instances batch, repeated {} times"
                                         [FInt 0; FInt repeat];
                                       EvPrint "Average latency per batch: {} seconds"
                                         [FSeconds (elapsed / inject_Z repeat)%Q] ]))
                        end)))).
Proof.
  split.
  { intros e Hcollect. unfold benchmark_inference.
    apply (bind_raise _ _ w w e). unfold lift. by rewrite Hcollect. }
  intros instances Hcollect n warm post started t0 ws t1 elapsed timed.
  unfold benchmark_inference.
  rewrite (bind_ok _ _ w w instances) by (unfold lift; by rewrite Hcollect).
  pose proof (predict_pair X (take 1 instances) version w) as Hwarm.
  split.
  { intros e He. rewrite He in Hwarm. by rewrite (bind_raise _ _ _ _ _ Hwarm). }
  intros o1 Ho1. rewrite Ho1 in Hwarm.
  change (after_posts w _ 1) with (World (fs w) (log w ++ [warm])) in Hwarm.
  rewrite (bind_ok _ _ _ _ _ Hwarm).
  rewrite (bind_ok _ _ _ _ _ (print_run_acc _ _ _ _ _)). cbn [app].
  rewrite (bind_ok _ _ _ _ _ (print_run_acc _ _ _ _ _)). cbn [app].
  rewrite (bind_ok _ _ _ _ _ (utcnow_run_acc _ _ _ _)). cbn [app].
  change (ext_utcnow X {| fs := fs w; log := log w ++ started |}) with t0.
  change {| fs := fs w; log := log w ++ [warm; _; _; EvUtcNow t0] |} with ws.
  fold n. split.
  { intros e k Hk Hfail Hbefore.
    pose proof (timed_requests_first_failure X instances version n None ws e k
                  Hk Hfail Hbefore) as Hrun.
    rewrite (bind_raise _ _ _ _ _ Hrun).
    unfold after_posts, ws. cbn [fs log]. by rewrite <- app_assoc. }
  intros Hall.
  destruct (timed_requests_all_answered X instances version n None ws Hall)
    as (output & Hrun & Hlast).
  fold post in Hrun.
  rewrite (bind_ok _ _ _ _ _ Hrun).
  rewrite (bind_ok _ _ _ _ _ (utcnow_run _ _)).
  change (ext_utcnow X (after_posts ws post n)) with t1.
  rewrite (bind_ok _ _ _ _ _ (print_run _ _ _)).
  assert (forall tail,
    {| fs := fs w; log := ((log (after_posts ws post n) ++ [EvUtcNow t1])
                           ++ [EvPrint "Inference elapsed time: {} seconds\n"
                                 [FSeconds elapsed]]) ++ tail |}
    = {| fs := fs w; log := log w ++ timed ++ tail |}) as Hlog.
  { intros tail. f_equal. unfold timed, after_posts, ws. cbn [fs log].
    rewrite <- !app_assoc. reflexivity. }
  split.
  - intros Hn. rewrite Hn in Hlast. subst output.
    unfold mbind, M_bind, bind, mret, M_ret, ret, raise.
    cbn [fs log]. specialize (Hlog []). rewrite !app_nil_r in Hlog. by rewrite <- Hlog.
  - intros m o Hn Ho. rewrite Hn in Hlast. destruct Hlast as (o' & Ho' & ->).
    assert (@Ok (list nat) o' = Ok o) as [= ->] by (by rewrite <- Ho, <- Ho').
    assert (bool_decide (repeat = 0%Z) = false) as Hne
      by (apply bool_decide_eq_false; lia).
    destruct o as [| c o].
    + unfold mbind, M_bind, bind, mret, M_ret, ret, raise, print, emit. rewrite Hne.
      cbn [fs log]. rewrite <- Hlog. by rewrite <- !app_assoc.
    + unfold mbind, M_bind, bind, mret, M_ret, ret, raise, print, emit. rewrite Hne.
      cbn [fs log]. rewrite <- Hlog. unfold closing_reports. by rewrite <- !app_assoc.
Qed.

Lemma benchmark_inference_fixed_loop_no_retry_witness :
  (benchmark_inference Edge.ext_server_lost 1 2 3 Demo.empty).1
    = Raise (ConnectionError "connection refused")
  /\ length (posts (log (benchmark_inference Edge.ext_server_lost 1 2 3 Demo.empty).2)) = 3%nat
  /\ benchmark_inference Demo.ext 1 2 3 Demo.empty =
       (Ok tt,
        World ∅
          ([ EvPost (predict_url 1) (predict_payload [JList [JNum 0]]);
             EvPrint "Warm up request performed!" [];
             EvPrint "Timer started..." [];
             EvUtcNow 3 ]
           ++ replicate 3 (EvPost (predict_url 1)
                             (predict_payload [JList [JNum 0]; JList [JNum 1]]))
           ++ [ EvUtcNow 7;
                EvPrint "Inference elapsed time: {} seconds\n" [FSeconds (7 - 3)%Q];
                EvPrint "Prediction produced for {} instances batch, repeated {} times"
                  [FInt 2; FInt 3];
                EvPrint "Average latency per batch: {} seconds"
                  [FSeconds ((7 - 3) / inject_Z 3)%Q];
                EvPrint "Prediction output for the last instance: {}" [FClass 1] ])).
Proof.
  destruct (benchmark_inference_fixed_loop_no_retry Edge.ext_server_lost Demo.empty 1 2 3)
    as [_ Hlost].
  destruct (Hlost [JList [JNum 0]; JList [JNum 1]] eq_refl) as [_ Hlost'].
  destruct (Hlost' [1%nat] eq_refl) as [Hfail _].
  unshelve epose proof (Hfail (ConnectionError "connection refused") 1%nat _ _ _) as Hrun.
  { vm_compute. lia. }
  { reflexivity. }
  { intros j Hj. assert (j = O) as -> by lia. by exists [1%nat; 1%nat]. }
  destruct (benchmark_inference_fixed_loop_no_retry Demo.ext Demo.empty 1 2 3)
    as [_ Hdemo].
  destruct (Hdemo [JList [JNum 0]; JList [JNum 1]] eq_refl) as [_ Hdemo'].
  destruct (Hdemo' [1%nat] eq_refl) as [_ Hall].
  destruct Hall as [_ Hlast].
  { intros k Hk. exists [1%nat; 1%nat].
    assert (k = 0 \/ k = 1 \/ k = 2)%nat as [-> | [-> | ->]] by (vm_compute in Hk; lia);
      reflexivity. }
  split; [by rewrite Hrun |]. split; [by rewrite Hrun |].
  apply (Hlast 2%nat [1%nat; 1%nat]); reflexivity.
Defined.


Lemma posts_replicate (n : nat) (url : string) (payload : json) :
  posts (replicate n (EvPost url payload)) = replicate n (url, payload).
Proof. induction n as [| n IH]; simpl; [done | by rewrite IH]. Qed.




(** ** The serving layout *)


Lemma after_guard_new_events (d : string) (w : world) :
  exists guard,
    log (after_guard d w) = log w ++ guard
    /\ serving_targets guard = [] /\ graph_reads guard = [].
Proof.
  unfold after_guard. destruct (FS.exists_ d (fs w)); simpl; eauto.
Qed.


Lemma copy_to_serving_cell_events (X : externals) (w : world) :
  new_events (copy_to_serving_cell X) w =
    [ EvLs "/saved_models/mnist/export/";
      EvMkdirP "/serving/mnist/1";
      EvCpR ("/saved_models/mnist/export/"
               +:+ default "" (last (ext_ls X (World (fs w)
                                                (log w ++ [EvLs "/saved_models/mnist/export/"]))
                                       "/saved_models/mnist/export/")))
            "/serving/mnist/1" ].
Proof.
  apply new_events_app. unfold copy_to_serving_cell, mkdir_p, cp_r_glob. run_monad.
  destruct (FS.copied _ _ _); simpl; by rewrite <- !app_assoc.
Qed.


(** A conversion that returns has written the exporter's tree over what
    the guard left. *)
Lemma convert_success_tree (X : externals) (path d : string) (w w' : world) :
  convert_graph_def_to_saved_model X path d w = (Ok tt, w') ->
  exists tree,
    converted_tree X path d w tree
    /\ fs w' = FS.write_tree d tree (fs (after_guard d w)).
Proof.
  rewrite convert_graph_def_to_saved_model_run. unfold convert_after_guard, converted_tree.
  destruct (ext_get_graph_def_from_file X _ path) as [g | e] eqn:Hg; [| done].
  destruct (ext_import_graph_def X g) as [[] | e]; [| done].
  destruct (placeholder_inputs X g g ∅) as [inputs | e] eqn:Hin; [| done].
  unfold get_tensor_by_name.
  destruct (ext_has_tensor X g "softmax/Softmax:0"); [| done].
  destruct (ext_simple_save X _ d inputs _) as [tree | e] eqn:Hsave; [| done].
  intros [= <-]. exists tree. split; [| done].
  exists g, inputs. cbv zeta. split; [reflexivity |]. split; [exact Hin | exact Hsave].
Qed.







(** * Further properties of the notebook *)

(** ** The batch of a benchmark *)

Lemma collect_instances_total (X : externals) (n i : nat) (acc : list json) :
  (i <= length (eval_data X))%nat ->
  collect_instances X i n acc =
    if decide (i + n <= length (eval_data X))%nat
    then Ok (acc ++ take n (drop i (eval_data X)))
    else Raise (IndexError "index out of bounds").
Proof.
  revert i acc. induction n as [| n IH]; intros i acc Hi; simpl.
  - rewrite decide_True by lia. by rewrite take_0, app_nil_r.
  - destruct (eval_data X !! i) as [img |] eqn:Himg.
    + pose proof (lookup_lt_Some _ _ _ Himg) as Hlt.
      rewrite IH by lia.
      destruct (decide (S i + n <= length (eval_data X))%nat) as [Hle | Hgt].
      * rewrite decide_True by lia.
        rewrite (drop_S _ img i Himg). simpl. rewrite <- app_assoc. reflexivity.
      * by rewrite decide_False by lia.
    + apply lookup_ge_None in Himg. by rewrite decide_False by lia.
Qed.

(** X1: asked for more images than [eval_data] holds, [benchmark_inference]
    raises [IndexError] while it collects the batch: no request is sent,
    nothing is printed and the world is left as it was. *)
Theorem benchmark_inference_batch_out_of_range
    (X : externals) (w : world) (version batch repeat : Z) :
  (length (eval_data X) < Z.to_nat batch)%nat ->
  benchmark_inference X version batch repeat w =
    (Raise (IndexError "index out of bounds"), w).
Proof.
  intros Hbatch. unfold benchmark_inference.
  apply (bind_raise _ _ w w). unfold lift.
  rewrite collect_instances_total by lia. by rewrite decide_False by lia.
Qed.

Lemma benchmark_inference_batch_out_of_range_witness :
  benchmark_inference Demo.ext 1 4 10 Demo.empty =
    (Raise (IndexError "index out of bounds"), Demo.empty).
Proof.
  apply (benchmark_inference_batch_out_of_range Demo.ext Demo.empty 1 4 10).
  vm_compute. lia.
Defined.

(** X2: when the batch fits, every request of a benchmark, in every run,
    carries a prefix of [eval_data]: first the warm-up with [instances[:1]],
    then at most [repeat] requests, all with the same first [batch] images
    in their order.  No request is ever sent twice on failure. *)
Theorem benchmark_inference_requests
    (X : externals) (w : world) (version batch repeat : Z) :
  (Z.to_nat batch <= length (eval_data X))%nat ->
  let instances := take (Z.to_nat batch) (eval_data X) in
  exists k,
    (k <= Z.to_nat repeat)%nat
    /\ posts (new_events (benchmark_inference X version batch repeat) w) =
         (predict_url version, predict_payload (take 1 instances))
           :: replicate k (predict_url version, predict_payload instances).
Proof.
  intros Hbatch instances.
  assert (collect_instances X 0 (Z.to_nat batch) [] = Ok instances) as Hcollect.
  { rewrite collect_instances_total by lia. rewrite decide_True by (simpl; lia).
    by rewrite drop_0. }
  assert (forall l1 l2, posts (l1 ++ l2) = posts l1 ++ posts l2) as Happ
    by (intros; apply omap_app).
  destruct (benchmark_inference_outcome X w version batch repeat instances Hcollect)
    as [(e & _ & Hrun) | [(e & k & Hk & _ & _ & Hrun) | (_ & [Hrun | Hrun])]].
  - exists O. split; [lia |].
    by rewrite (new_events_app _ _ _ (f_equal (fun r => log r.2) Hrun)).
  - exists (S k). split; [lia |].
    rewrite (new_events_app _ _ _ (f_equal (fun r => log r.2) Hrun)).
    rewrite !Happ, posts_replicate. reflexivity.
  - destruct Hrun as (len & first & _ & Hrun). exists (Z.to_nat repeat). split; [lia |].
    rewrite (new_events_app _ _ _ (f_equal (fun r => log r.2) Hrun)).
    rewrite !Happ, posts_replicate. simpl. by rewrite !app_nil_r.
  - destruct Hrun as (e & tail & Htail & Hrun). exists (Z.to_nat repeat). split; [lia |].
    rewrite (new_events_app _ _ _ (f_equal (fun r => log r.2) Hrun)).
    rewrite !Happ, posts_replicate, Htail. simpl. by rewrite !app_nil_r.
Qed.

Lemma benchmark_inference_requests_witness :
  exists k,
    (k <= Z.to_nat 3)%nat
    /\ posts (new_events (benchmark_inference Demo.ext 1 2 3) Demo.empty) =
         (predict_url 1, predict_payload (take 1 (take (Z.to_nat 2) (eval_data Demo.ext))))
           :: replicate k
                (predict_url 1, predict_payload (take (Z.to_nat 2) (eval_data Demo.ext))).
Proof.
  apply (benchmark_inference_requests Demo.ext Demo.empty 1 2 3).
  vm_compute. lia.
Defined.

(** X3: with [repeat] zero or negative the loop body never runs, [output]
    stays [None], and after the elapsed time has been printed
    [len(output)] raises [TypeError]; the division by [repeat] is never
    reached.  The warm-up is then the only request of the call. *)
Theorem benchmark_inference_without_repeats
    (X : externals) (w : world) (version batch repeat : Z) (o : list nat) :
  (repeat <= 0)%Z ->
  (Z.to_nat batch <= length (eval_data X))%nat ->
  let instances := take (Z.to_nat batch) (eval_data X) in
  (predict X (take 1 instances) version w).1 = Ok o ->
  exists t0 t1,
    benchmark_inference X version batch repeat w =
      (Raise (TypeError "object of type 'NoneType' has no len()"),
       World (fs w)
         (log w ++ [ EvPost (predict_url version) (predict_payload (take 1 instances));
                     EvPrint "Warm up request performed!" [];
                     EvPrint "Timer started..." [];
                     EvUtcNow t0;
                     EvUtcNow t1;
                     EvPrint "Inference elapsed time: {} seconds\n"
                       [FSeconds (t1 - t0)%Q] ])).
Proof.
  intros Hrepeat Hbatch instances Hwarm.
  assert (collect_instances X 0 (Z.to_nat batch) [] = Ok instances) as Hcollect.
  { rewrite collect_instances_total by lia. rewrite decide_True by (simpl; lia).
    by rewrite drop_0. }
  pose proof (predict_pair X (take 1 instances) version w) as Hpair.
  rewrite Hwarm in Hpair.
  change (after_posts w _ 1) with
    (World (fs w) (log w ++ [EvPost (predict_url version)
                               (predict_payload (take 1 instances))])) in Hpair.
  eexists _, _. unfold benchmark_inference.
  rewrite (bind_ok _ _ w w instances) by (unfold lift; by rewrite Hcollect).
  rewrite (bind_ok _ _ _ _ _ Hpair).
  rewrite (bind_ok _ _ _ _ _ (print_run_acc _ _ _ _ _)). cbn [app].
  rewrite (bind_ok _ _ _ _ _ (print_run_acc _ _ _ _ _)). cbn [app].
  rewrite (bind_ok _ _ _ _ _ (utcnow_run_acc _ _ _ _)). cbn [app].
  rewrite (Z2Nat.nonpos repeat Hrepeat). cbn [timed_requests].
  rewrite (bind_ok (mret None) _ _ _ None eq_refl).
  rewrite (bind_ok _ _ _ _ _ (utcnow_run_acc _ _ _ _)). cbn [app].
  rewrite (bind_ok _ _ _ _ _ (print_run_acc _ _ _ _ _)). cbn [app].
  reflexivity.
Qed.

Lemma benchmark_inference_without_repeats_witness :
  exists t0 t1,
    benchmark_inference Demo.ext 1 2 0 Demo.empty =
      (Raise (TypeError "object of type 'NoneType' has no len()"),
       World ∅
         [ EvPost (predict_url 1)
             (predict_payload (take 1 (take (Z.to_nat 2) (eval_data Demo.ext))));
           EvPrint "Warm up request performed!" [];
           EvPrint "Timer started..." [];
           EvUtcNow t0;
           EvUtcNow t1;
           EvPrint "Inference elapsed time: {} seconds\n" [FSeconds (t1 - t0)%Q] ]).
Proof.
  apply (benchmark_inference_without_repeats Demo.ext Demo.empty 1 2 0 [1%nat]).
  - lia.
  - vm_compute. lia.
  - reflexivity.
Defined.

(** X4: neither [predict] nor [benchmark_inference] touches the file
    system, whatever the server answers and however the call ends. *)
Theorem requests_leave_files_alone
    (X : externals) (w : world) (instances : list json) (version batch repeat : Z) :
  fs (predict X instances version w).2 = fs w
  /\ fs (benchmark_inference X version batch repeat w).2 = fs w.
Proof.
  split; [by rewrite predict_world |].
  destruct (collect_instances X 0 (Z.to_nat batch) []) as [batch_instances | e] eqn:Hcollect.
  - destruct (benchmark_inference_outcome X w version batch repeat batch_instances Hcollect)
      as [(e & _ & Hrun) | [(e & k & _ & _ & _ & Hrun) | (_ & [Hrun | Hrun])]].
    + by rewrite Hrun.
    + by rewrite Hrun.
    + destruct Hrun as (len & first & _ & Hrun). by rewrite Hrun.
    + destruct Hrun as (e & tail & _ & Hrun). by rewrite Hrun.
  - unfold benchmark_inference.
    rewrite (bind_raise _ _ w w e) by (unfold lift; by rewrite Hcollect). done.
Qed.

(** ** Answers [predict] cannot use *)

(** X5: on a status that is not an error code, [predict] still raises when
    the body is unusable: [JSONDecodeError] when it is not JSON, [TypeError]
    when the JSON is not an object, and [KeyError] when the object has no
    ["predictions"] member. *)
Theorem predict_unusable_body
    (X : externals) (instances : list json) (version : Z) (w : world) (res : response) :
  ext_post X (World (fs w) (log w ++ [EvPost (predict_url version) (predict_payload instances)]))
    (predict_url version) (predict_payload instances) = Ok res ->
  is_error_status (status_code res) = false ->
  (body res = None -> (predict X instances version w).1 = Raise JSONDecodeError)
  /\ (forall j, body res = Some j -> (forall items, j <> JObj items) ->
        exists msg, (predict X instances version w).1 = Raise (TypeError msg))
  /\ (forall items, body res = Some (JObj items) ->
        Forall (fun kv : string * json => kv.1 <> "predictions") items ->
        (predict X instances version w).1 = Raise (KeyError "predictions")).
Proof.
  intros Hpost Hst.
  unfold predict, requests_post, raise_for_status, res_json, predict_payload in *.
  unfold is_error_status in Hst. run_monad. rewrite Hpost, Hst. simpl.
  split; [| split].
  - by intros ->.
  - intros j -> Hj. destruct j; simpl; eauto. by destruct (Hj items).
  - intros items -> Hnone. simpl.
    apply (list_find_None (fun kv : string * json => kv.1 = "predictions")) in Hnone.
    by rewrite Hnone.
Qed.

Lemma predict_unusable_body_witness :
  (predict Demo.ext_no_predictions [JList [JNum 0]] 1 Demo.empty).1
    = Raise (KeyError "predictions").
Proof.
  apply (proj2 (proj2 (predict_unusable_body Demo.ext_no_predictions [JList [JNum 0]] 1
                         Demo.empty (Response 200 (Some (JObj []))) eq_refl eq_refl))
           [] eq_refl).
  constructor.
Defined.

Lemma comprehension_empty_vector (X : externals) (items : list json) :
  Forall (fun item => exists v, PyVal.as_vector item = Some v) items ->
  Exists (fun item => PyVal.as_vector item = Some []) items ->
  PyVal.comprehension (np_argmax X) items =
    Raise (ValueError "attempt to get argmax of an empty sequence").
Proof.
  induction 1 as [| item items [v Hv] _ IH]; intros Hex; simpl.
  - by apply Exists_nil in Hex.
  - unfold np_argmax at 1. rewrite Hv.
    destruct v as [| x v]; [done |]. simpl.
    apply Exists_cons in Hex as [Hhere | Hlater]; [congruence |].
    by rewrite (IH Hlater).
Qed.

(** X6: when every prediction is a vector of numbers and one of them is
    empty, [predict] raises [ValueError] and returns no class id at all,
    not even for the predictions that precede the empty one. *)
Theorem predict_empty_prediction
    (X : externals) (instances : list json) (version : Z) (w : world)
    (res : response) (j : json) (items : list json) :
  ext_post X (World (fs w) (log w ++ [EvPost (predict_url version) (predict_payload instances)]))
    (predict_url version) (predict_payload instances) = Ok res ->
  is_error_status (status_code res) = false ->
  body res = Some j ->
  PyVal.getitem j "predictions" = Ok (JList items) ->
  Forall (fun item => exists v, PyVal.as_vector item = Some v) items ->
  Exists (fun item => PyVal.as_vector item = Some []) items ->
  (predict X instances version w).1 =
    Raise (ValueError "attempt to get argmax of an empty sequence").
Proof.
  intros Hpost Hst Hbody Hget Hall Hex.
  pose proof (comprehension_empty_vector X items Hall Hex) as Hcomp.
  unfold predict, requests_post, raise_for_status, res_json, predict_payload in *.
  unfold is_error_status in Hst. run_monad.
  by rewrite Hpost, Hst, Hbody, Hget; simpl; rewrite Hcomp.
Qed.

Lemma predict_empty_prediction_witness :
  (predict Edge.ext_empty_prediction [JList [JNum 0]; JList [JNum 1]] 1 Demo.empty).1 =
    Raise (ValueError "attempt to get argmax of an empty sequence").
Proof.
  eapply (predict_empty_prediction Edge.ext_empty_prediction
            [JList [JNum 0]; JList [JNum 1]] 1 Demo.empty
            (Response 200 (Some (JObj [("predictions", JList [Demo.scores; JList []])])))).
  - reflexivity.
  - reflexivity.
  - reflexivity.
  - reflexivity.
  - repeat constructor; eexists; reflexivity.
  - right. left. reflexivity.
Defined.

(** X7: every class id [predict] returns is a valid position in the score
    vector it was computed from, and there are as many ids as predictions:
    with ten scores per prediction the ids lie between 0 and 9. *)
Theorem predict_class_ids_in_range
    (X : externals) (instances : list json) (version : Z) (w : world)
    (res : response) (j : json) (items : list json) (vs : list (list Q)) :
  ext_post X (World (fs w) (log w ++ [EvPost (predict_url version) (predict_payload instances)]))
    (predict_url version) (predict_payload instances) = Ok res ->
  is_error_status (status_code res) = false ->
  body res = Some j ->
  PyVal.getitem j "predictions" = Ok (JList items) ->
  Forall2 (fun item v => PyVal.as_vector item = Some v /\ v <> []) items vs ->
  exists ids,
    (predict X instances version w).1 = Ok ids
    /\ length ids = length items
    /\ Forall2 (fun (v : list Q) (c : nat) => (c < length v)%nat) vs ids.
Proof.
  intros Hpost Hst Hbody Hget Hvs.
  destruct (predict_well_formed X instances version w res j items vs
              Hpost Hst Hbody Hget Hvs) as (ids & Hids & Hmax).
  exists ids. split; [done |]. split.
  - rewrite (Forall2_length _ _ _ Hvs). symmetry. by eapply Forall2_length.
  - eapply Forall2_impl; [exact Hmax |].
    by intros v c [Hc _].
Qed.

Lemma predict_class_ids_in_range_witness :
  exists ids,
    (predict Demo.ext [JList [JNum 0]; JList [JNum 1]] 1 Demo.empty).1 = Ok ids
    /\ length ids = length [Demo.scores; Demo.scores]
    /\ Forall2 (fun (v : list Q) (c : nat) => (c < length v)%nat)
         [[1 # 8; 5 # 8; 1 # 4]; [1 # 8; 5 # 8; 1 # 4]]%Q ids.
Proof.
  apply (predict_class_ids_in_range Demo.ext
           [JList [JNum 0]; JList [JNum 1]] 1 Demo.empty
           (Demo.serve (predict_payload [JList [JNum 0]; JList [JNum 1]]))
           (JObj [("predictions", JList [Demo.scores; Demo.scores])])
           [Demo.scores; Demo.scores]).
  - reflexivity.
  - reflexivity.
  - reflexivity.
  - reflexivity.
  - repeat constructor; discriminate.
Defined.

(** ** One endpoint per version *)

Lemma string_length_app (a b : string) :
  String.length (a +:+ b) = (String.length a + String.length b)%nat.
Proof.
  induction a as [| c a IH]; [done |].
  change (S (String.length (a +:+ b)) = S (String.length a + String.length b)).
  by rewrite IH.
Qed.

Lemma string_app_inj_r (a b s : string) : a +:+ s = b +:+ s -> a = b.
Proof.
  revert b. induction a as [| c a IH]; intros [| c' b] H.
  - done.
  - apply (f_equal String.length) in H. rewrite !string_length_app in H.
    simpl in H. lia.
  - apply (f_equal String.length) in H. rewrite !string_length_app in H.
    simpl in H. lia.
  - change (String c (a +:+ s) = String c' (b +:+ s)) in H.
    injection H as -> H. f_equal. by apply IH.
Qed.

(** X8: two versions never share an endpoint: the URL [predict] posts to
    determines the version, so a benchmark of one version cannot reach the
    model of another. *)
Theorem predict_url_determines_version (v1 v2 : Z) :
  v1 <> v2 -> predict_url v1 <> predict_url v2.
Proof.
  unfold predict_url, Py.str. intros Hne H. apply Hne.
  apply (inj (String.app SERVER_URL)) in H.
  apply (inj (String.app "/v1/models/mnist/versions/")) in H.
  apply string_app_inj_r in H.
  by apply (inj pretty) in H.
Qed.

Lemma predict_url_determines_version_witness : predict_url 2 <> predict_url 3.
Proof.
  apply (predict_url_determines_version 2 3). discriminate.
Defined.

(** ** What an overwrite leaves behind *)

Lemma after_guard_stale (d p : string) (n : fsnode) (w : world) :
  FS.under d p = true ->
  fs (after_guard d w) !! p = Some n ->
  FS.exists_ d (fs w) = false /\ fs w !! p = Some n.
Proof.
  unfold after_guard. intros Hu. destruct (FS.exists_ d (fs w)); simpl.
  - by rewrite remove_tree_under.
  - done.
Qed.

(** X9: after a conversion that returned normally, nothing of a SavedModel
    that was in the target directory before is left: the file system holds
    the tree the exporter has just answered with, and every entry at or
    below the target is an entry of that tree or a directory created on the
    way to the target.  Old entries can only remain when the target itself
    did not exist. *)
Theorem convert_leaves_no_stale_entry
    (X : externals) (path d : string) (w w' : world) :
  convert_graph_def_to_saved_model X path d w = (Ok tt, w') ->
  exists tree,
    converted_tree X path d w tree
    /\ tree_below d tree (fs w')
    /\ forall p n,
         FS.under d p = true ->
         fs w' !! p = Some n ->
         (exists e, e ∈ tree /\ p = Py.os_path_join d e.1 /\ n = e.2)
         \/ (n = Dir /\ p ∈ FS.dirs_upto "" d)
         \/ (FS.exists_ d (fs w) = false /\ fs w !! p = Some n).
Proof.
  intros Hrun.
  destruct (convert_success_tree X path d w w' Hrun) as (tree & Htree & Hfs).
  exists tree. split; [done |]. split.
  { intros pre rel n post -> Hpre. rewrite Hfs. by apply write_tree_entry. }
  intros p n Hu Hp. rewrite Hfs in Hp.
  destruct (write_tree_lookup _ _ _ _ _ Hp) as [He | [Hold | (_ & -> & Hdir)]]; auto.
  right. right. by eapply after_guard_stale.
Qed.

Lemma convert_leaves_no_stale_entry_witness :
  let w' := (convert_graph_def_to_saved_model Demo.ext "/m/freezed_model.pb"
               "/serving/mnist/2" Edge.converted_before).2 in
  fs Edge.converted_before !! "/serving/mnist/2/variables/variables.index"
    = Some (File "earlier")
  /\ fs w' !! "/serving/mnist/2/variables/variables.index" = None
  /\ fs w' !! "/serving/mnist/2/saved_model.pb" = Some (File "converted").
Proof.
  intros w'.
  destruct (convert_leaves_no_stale_entry Demo.ext "/m/freezed_model.pb" "/serving/mnist/2"
              Edge.converted_before w' eq_refl)
    as (tree & (g & inputs & _ & _ & Hsave) & Hbelow & Hall).
  injection Hsave as <-.
  split; [reflexivity |]. split.
  - destruct (fs w' !! "/serving/mnist/2/variables/variables.index") as [n |] eqn:Hp;
      [| reflexivity].
    destruct (Hall "/serving/mnist/2/variables/variables.index" n eq_refl Hp)
      as [(e & He & Hpath & _) | [[_ Hdir] | [Hex _]]].
    + apply list_elem_of_singleton in He as ->. discriminate Hpath.
    + vm_compute in Hdir.
      repeat (apply elem_of_cons in Hdir as [Hdir | Hdir]; [discriminate Hdir |]).
      by apply elem_of_nil in Hdir.
    + discriminate Hex.
  - apply (Hbelow [] "saved_model.pb" (File "converted") []); [reflexivity | constructor].
Defined.

(** X10: the export cell returns the time-stamped directory the exporter
    chose below [export_dir], and after it nothing of an earlier export is
    left there: every entry at or below [export_dir] belongs to the tree
    just written or is a directory on the way to it. *)
Theorem export_cell_leaves_no_stale_entry
    (X : externals) (w w' : world) (target : string) :
  export_cell X w = (Ok target, w') ->
  exists w1 stamp tree,
    ext_export_savedmodel X w1 export_dir = Ok (stamp, tree)
    /\ target = Py.os_path_join export_dir stamp
    /\ forall p n,
         FS.under export_dir p = true ->
         fs w' !! p = Some n ->
         (exists e, e ∈ tree /\ p = Py.os_path_join target e.1 /\ n = e.2)
         \/ (n = Dir /\ p ∈ FS.dirs_upto "" target)
         \/ (FS.exists_ export_dir (fs w) = false /\ fs w !! p = Some n).
Proof.
  rewrite export_cell_run. unfold export_savedmodel. run_monad.
  destruct (ext_export_savedmodel X _ export_dir) as [[stamp tree] |] eqn:Hexport;
    simpl; [| done].
  intros [= <- <-]. eexists _, stamp, tree. split; [exact Hexport |]. split; [done |].
  intros p n Hu Hp. simpl in Hp.
  destruct (write_tree_lookup _ _ _ _ _ Hp) as [He | [Hold | (_ & -> & Hdir)]]; auto.
  right. right. by eapply after_guard_stale.
Qed.

Lemma export_cell_leaves_no_stale_entry_witness :
  exists w1 stamp tree,
    ext_export_savedmodel Demo.ext w1 export_dir = Ok (stamp, tree)
    /\ "/saved_models/mnist/export/1554000000" = Py.os_path_join export_dir stamp
    /\ forall p n,
         FS.under export_dir p = true ->
         fs (export_cell Demo.ext Edge.trained).2 !! p = Some n ->
         (exists e, e ∈ tree
                    /\ p = Py.os_path_join "/saved_models/mnist/export/1554000000" e.1
                    /\ n = e.2)
         \/ (n = Dir /\ p ∈ FS.dirs_upto "" "/saved_models/mnist/export/1554000000")
         \/ (FS.exists_ export_dir (fs Edge.trained) = false
             /\ fs Edge.trained !! p = Some n).
Proof.
  apply (export_cell_leaves_no_stale_entry Demo.ext Edge.trained).
  reflexivity.
Defined.

(** ** Conversions that fail *)

(** Either the conversion stops before the export call, leaving the file
    system as the guard left it, or it makes the export call. *)
Lemma convert_after_guard_cases (X : externals) (path d : string) (w0 : world) :
  (exists e,
      convert_after_guard X path d w0 =
        (Raise e, World (fs w0) (log w0 ++ [EvGetGraphDefFromFile path])))
  \/ (exists inputs outputs rest,
        log (convert_after_guard X path d w0).2 =
          log w0 ++ EvGetGraphDefFromFile path :: EvSimpleSave d inputs outputs :: rest).
Proof.
  unfold convert_after_guard.
  destruct (ext_get_graph_def_from_file X (fs w0) path) as [g | e]; [| eauto].
  destruct (ext_import_graph_def X g) as [[] | e]; [| eauto].
  destruct (placeholder_inputs X g g ∅) as [inputs | e]; [| eauto].
  destruct (get_tensor_by_name X g "softmax/Softmax:0") as [softmax | e]; [| eauto].
  right. exists inputs, {["softmax" := softmax]}.
  destruct (ext_simple_save X _ d inputs _) as [tree | e]; simpl.
  - by eexists [_].
  - by exists [].
Qed.

(** X11: the conversion is not atomic.  When it stops before the export
    call (the graph file cannot be read or imported, or a tensor is
    missing), it raises, and the SavedModel that was in an existing target
    directory has already been deleted and is not replaced; everything
    outside the target is as before. *)
Theorem convert_failure_after_deletion
    (X : externals) (path d : string) (w : world) :
  FS.exists_ d (fs w) = true ->
  save_calls (new_events (convert_graph_def_to_saved_model X path d) w) = [] ->
  (exists e, (convert_graph_def_to_saved_model X path d w).1 = Raise e)
  /\ fs (convert_graph_def_to_saved_model X path d w).2 = FS.remove_tree d (fs w)
  /\ (forall p, FS.under d p = true ->
        fs (convert_graph_def_to_saved_model X path d w).2 !! p = None)
  /\ (forall p, FS.under d p = false ->
        fs (convert_graph_def_to_saved_model X path d w).2 !! p = fs w !! p).
Proof.
  intros Hex Hnone.
  assert (fs (after_guard d w) = FS.remove_tree d (fs w)) as Hfs
    by (unfold after_guard; by rewrite Hex).
  destruct (after_guard_new_events d w) as (guard & Hguard & _ & _).
  unfold new_events in Hnone. rewrite convert_graph_def_to_saved_model_run in *.
  destruct (convert_after_guard_cases X path d (after_guard d w))
    as [(e & ->) | (inputs & outputs & rest & Hlog)].
  - simpl. rewrite Hfs. split; [eauto |]. split; [done |]. split; intros p Hp.
    + by apply remove_tree_under.
    + by apply remove_tree_outside.
  - rewrite Hlog, Hguard, <- app_assoc, drop_app_length in Hnone.
    unfold save_calls in Hnone. rewrite omap_app in Hnone. simpl in Hnone.
    by apply app_eq_nil in Hnone as [_ Hnone].
Qed.

Lemma convert_failure_after_deletion_witness :
  (exists e, (convert_graph_def_to_saved_model Demo.ext "/m/missing.pb"
                "/serving/mnist/2" Edge.served).1 = Raise e)
  /\ fs (convert_graph_def_to_saved_model Demo.ext "/m/missing.pb"
           "/serving/mnist/2" Edge.served).2
     = FS.remove_tree "/serving/mnist/2" (fs Edge.served)
  /\ (forall p, FS.under "/serving/mnist/2" p = true ->
        fs (convert_graph_def_to_saved_model Demo.ext "/m/missing.pb"
              "/serving/mnist/2" Edge.served).2 !! p = None)
  /\ (forall p, FS.under "/serving/mnist/2" p = false ->
        fs (convert_graph_def_to_saved_model Demo.ext "/m/missing.pb"
              "/serving/mnist/2" Edge.served).2 !! p = fs Edge.served !! p).
Proof.
  apply (convert_failure_after_deletion Demo.ext "/m/missing.pb" "/serving/mnist/2"
           Edge.served).
  - reflexivity.
  - reflexivity.
Defined.

(** X12: a graph file kept inside the target directory is lost.  If the
    target exists and the graph file lies at or below it, the guard deletes
    the file before it is read; with a reader that raises on a missing file
    the conversion ends in [NotFoundError] for the graph file, after the
    deletion and without any export call. *)
Theorem convert_deletes_graph_file_inside_target
    (X : externals) (path d : string) (w : world) :
  FS.exists_ d (fs w) = true ->
  FS.under d path = true ->
  (forall f p, f !! p = None ->
               ext_get_graph_def_from_file X f p = Raise (NotFoundError OpRead p)) ->
  convert_graph_def_to_saved_model X path d w =
    (Raise (NotFoundError OpRead path),
     World (FS.remove_tree d (fs w))
           (log w ++ [EvExists d; EvDeleteRecursively d; EvGetGraphDefFromFile path])).
Proof.
  intros Hex Hunder Hreader.
  rewrite convert_graph_def_to_saved_model_run.
  unfold after_guard. rewrite Hex. unfold convert_after_guard. simpl.
  rewrite Hreader by (by apply remove_tree_under).
  by rewrite <- app_assoc.
Qed.

Lemma convert_deletes_graph_file_inside_target_witness :
  convert_graph_def_to_saved_model Demo.ext "/serving/mnist/2/freezed_model.pb"
    "/serving/mnist/2" Edge.served =
    (Raise (NotFoundError OpRead "/serving/mnist/2/freezed_model.pb"),
     World (FS.remove_tree "/serving/mnist/2" (fs Edge.served))
           (log Edge.served ++ [EvExists "/serving/mnist/2";
                                EvDeleteRecursively "/serving/mnist/2";
                                EvGetGraphDefFromFile "/serving/mnist/2/freezed_model.pb"])).
Proof.
  apply (convert_deletes_graph_file_inside_target Demo.ext
           "/serving/mnist/2/freezed_model.pb" "/serving/mnist/2" Edge.served).
  - reflexivity.
  - reflexivity.
  - intros f p Hp. unfold Demo.ext, Demo.read. simpl. by rewrite Hp.
Defined.

(** X13: a graph without a tensor ["softmax/Softmax:0"] cannot be
    converted: once the graph is read and imported and its placeholders are
    found, the lookup of the output tensor raises [KeyError] for that name
    and no export call is made. *)
Theorem convert_missing_softmax
    (X : externals) (w : world) (path d : string) (g : graph_def) :
  ext_get_graph_def_from_file X (fs (after_guard d w)) path = Ok g ->
  ext_import_graph_def X g = Ok tt ->
  (forall node, node ∈ g -> node_op node = "Placeholder" ->
                ext_has_tensor X g (node_name node +:+ ":0") = true) ->
  ext_has_tensor X g "softmax/Softmax:0" = false ->
  (convert_graph_def_to_saved_model X path d w).1 = Raise (KeyError "softmax/Softmax:0")
  /\ save_calls (new_events (convert_graph_def_to_saved_model X path d) w) = [].
Proof.
  intros Hread Himport Hin Hout.
  destruct (placeholder_inputs_lookup X g g ∅ Hin) as (inputs & Hinputs & _).
  destruct (after_guard_new_events d w) as (guard & Hguard & _ & _).
  unfold new_events. rewrite convert_graph_def_to_saved_model_run.
  unfold convert_after_guard. rewrite Hread, Himport, Hinputs.
  unfold get_tensor_by_name. rewrite Hout. simpl. split; [done |].
  rewrite Hguard, <- app_assoc, drop_app_length.
  unfold save_calls. rewrite omap_app. simpl. rewrite app_nil_r.
  unfold after_guard in Hguard.
  destruct (FS.exists_ d (fs w)); simpl in Hguard;
    apply app_inv_head in Hguard as <-; reflexivity.
Qed.

Lemma convert_missing_softmax_witness :
  (convert_graph_def_to_saved_model Edge.ext_no_softmax "/m/freezed_model.pb"
     "/serving/mnist/2" Demo.frozen).1 = Raise (KeyError "softmax/Softmax:0")
  /\ save_calls (new_events (convert_graph_def_to_saved_model Edge.ext_no_softmax
                               "/m/freezed_model.pb" "/serving/mnist/2") Demo.frozen) = [].
Proof.
  apply (convert_missing_softmax Edge.ext_no_softmax Demo.frozen
           "/m/freezed_model.pb" "/serving/mnist/2" (Demo.graph_of "serving_input_image")).
  - reflexivity.
  - reflexivity.
  - intros node Hnode Hop. unfold Edge.ext_no_softmax, Edge.with_tools. simpl.
    apply negb_true_iff, String.eqb_neq. intros Heq.
    apply (f_equal String.length) in Heq. rewrite string_length_app in Heq.
    repeat (apply elem_of_cons in Hnode as [-> | Hnode]; [by vm_compute in Heq |]).
    by apply elem_of_nil in Hnode.
  - reflexivity.
Defined.

(** ** Freezing and optimising in sequence *)

Lemma freeze_graph_run (X : externals) (w : world) (saved_model_dir : string) :
  let path := freezed_filepath saved_model_dir in
  exists args,
    output_graph args = path
    /\ match ext_freeze_graph X (World (fs w) (log w ++ [EvFreezeGraph args])) args with
       | Ok content =>
           freeze_graph X saved_model_dir w =
             (Ok tt, World (<[path := File content]> (fs w))
                           (log w ++ [EvFreezeGraph args;
                                      EvPrint "SavedModel graph freezed!" []]))
       | Raise e =>
           freeze_graph X saved_model_dir w =
             (Raise e, World (fs w) (log w ++ [EvFreezeGraph args]))
       end.
Proof.
  intros path.
  exists (FreezeArgs saved_model_dir path tag_constants_SERVING "softmax/Softmax" ""
            None false false None None None false false).
  split; [done |].
  unfold freeze_graph, tool_freeze_graph, freezed_filepath in *. run_monad. fold path.
  destruct (ext_freeze_graph X _ _) as [content | e]; simpl; [| done].
  run_monad. by rewrite <- app_assoc.
Qed.

Lemma graph_files_differ (d : string) : freezed_filepath d <> optimised_filepath d.
Proof.
  unfold freezed_filepath, optimised_filepath.
  rewrite !os_path_join_relative by reflexivity.
  intros H. apply (inj (String.app _)) in H. discriminate H.
Qed.

(** X14: [freeze_graph] changes at most one entry of the file system, the
    file [freezed_model.pb] of the directory it is given; the SavedModel it
    freezes and every other file are as before, also when the utility
    raises. *)
Theorem freeze_graph_touches_one_file
    (X : externals) (w : world) (saved_model_dir p : string) :
  p <> Py.os_path_join saved_model_dir "freezed_model.pb" ->
  fs (freeze_graph X saved_model_dir w).2 !! p = fs w !! p.
Proof.
  intros Hp.
  destruct (freeze_graph_run X w saved_model_dir) as (args & _ & Hrun).
  destruct (ext_freeze_graph X _ args) as [content | e]; rewrite Hrun; simpl; [| done].
  by rewrite lookup_insert_ne.
Qed.

Lemma freeze_graph_touches_one_file_witness :
  fs (freeze_graph Demo.ext "/m" Demo.frozen).2 !! "/m/optimised_model.pb"
    = fs Demo.frozen !! "/m/optimised_model.pb".
Proof.
  apply (freeze_graph_touches_one_file Demo.ext Demo.frozen "/m" "/m/optimised_model.pb").
  discriminate.
Defined.

(** X15: when [optimize_graph] raises, because the graph file cannot be
    read or because the transform tool rejects it, nothing has been written:
    the file system is exactly as before the call. *)
Theorem optimize_graph_failure_writes_nothing
    (X : externals) (w : world) (model_dir graph_filename : string)
    (passes : list string) (e : exn) :
  (optimize_graph X model_dir graph_filename passes w).1 = Raise e ->
  fs (optimize_graph X model_dir graph_filename passes w).2 = fs w.
Proof.
  rewrite optimize_graph_run. cbv zeta.
  destruct (ext_get_graph_def_from_file X (fs w) _) as [g | e1]; [| done].
  by destruct (ext_TransformGraph X _ g [] ["softmax/Softmax"] passes) as [g' | e2].
Qed.

Lemma optimize_graph_failure_writes_nothing_witness :
  fs (optimize_graph Edge.ext_failing_transform "/m" "freezed_model.pb" transforms
        Demo.frozen).2 = fs Demo.frozen.
Proof.
  apply (optimize_graph_failure_writes_nothing Edge.ext_failing_transform Demo.frozen
           "/m" "freezed_model.pb" transforms (ToolError "TransformGraph" "invalid graph")).
  reflexivity.
Defined.

(** X16: the notebook's own call of [optimize_graph], on
    [freezed_model.pb], never alters the frozen graph: for every model
    directory the file read and the file written are different, so the
    frozen graph is afterwards what it was. *)
Theorem optimize_cell_keeps_frozen_graph
    (X : externals) (w : world) (saved_model_dir : string) (n : fsnode) :
  fs w !! freezed_filepath saved_model_dir = Some n ->
  graph_reads (new_events (optimize_cell X saved_model_dir) w)
    = [freezed_filepath saved_model_dir]
  /\ fs (optimize_cell X saved_model_dir w).2 !! freezed_filepath saved_model_dir = Some n.
Proof.
  intros Hn. unfold optimize_cell.
  pose proof (optimize_graph_run X w saved_model_dir "freezed_model.pb" transforms) as Hrun.
  cbv zeta in Hrun. fold (freezed_filepath saved_model_dir) in Hrun.
  fold (optimised_filepath saved_model_dir) in Hrun.
  destruct (ext_get_graph_def_from_file X (fs w) (freezed_filepath saved_model_dir))
    as [g | e].
  - destruct (ext_TransformGraph X _ g [] ["softmax/Softmax"] transforms) as [g' | e].
    + rewrite (new_events_app _ _ _ (f_equal (fun r => log r.2) Hrun)), Hrun. simpl.
      split; [done |].
      rewrite lookup_insert_ne by (intros H; by apply (graph_files_differ saved_model_dir)).
      by apply make_dirs_keeps.
    + by rewrite (new_events_app _ _ _ (f_equal (fun r => log r.2) Hrun)), Hrun.
  - by rewrite (new_events_app _ _ _ (f_equal (fun r => log r.2) Hrun)), Hrun.
Qed.

Lemma optimize_cell_keeps_frozen_graph_witness :
  graph_reads (new_events (optimize_cell Demo.ext "/m") Demo.frozen)
    = [freezed_filepath "/m"]
  /\ fs (optimize_cell Demo.ext "/m" Demo.frozen).2 !! freezed_filepath "/m"
     = Some (File "serving_input_image").
Proof.
  apply (optimize_cell_keeps_frozen_graph Demo.ext Demo.frozen "/m").
  reflexivity.
Defined.

(** X17: freezing and then optimising compose.  If [freeze_graph] and then
    the notebook's [optimize_graph] call both return normally, the reader
    in the second was given the very file the first wrote, the tool was
    called once, on the graph read and with the notebook's passes, and the
    model directory ends up holding both graphs: the frozen one as the
    utility produced it and the optimised one as serialised from the graph
    the tool returned in that call. *)
Theorem freeze_then_optimize
    (X : externals) (w w1 w2 : world) (saved_model_dir : string) :
  freeze_graph X saved_model_dir w = (Ok tt, w1) ->
  optimize_cell X saved_model_dir w1 = (Ok tt, w2) ->
  exists args content g g',
    output_graph args = freezed_filepath saved_model_dir
    /\ ext_freeze_graph X (World (fs w) (log w ++ [EvFreezeGraph args])) args = Ok content
    /\ fs w1 !! freezed_filepath saved_model_dir = Some (File content)
    /\ ext_get_graph_def_from_file X (fs w1) (freezed_filepath saved_model_dir) = Ok g
    /\ transform_calls (new_events (optimize_cell X saved_model_dir) w1)
         = [(g, [], ["softmax/Softmax"], transforms)]
    /\ ext_TransformGraph X
         (World (fs w1)
            (log w1 ++ [EvGetGraphDefFromFile (freezed_filepath saved_model_dir);
                        EvTransformGraph g [] ["softmax/Softmax"] transforms]))
         g [] ["softmax/Softmax"] transforms = Ok g'
    /\ fs w2 !! freezed_filepath saved_model_dir = Some (File content)
    /\ fs w2 !! optimised_filepath saved_model_dir = Some (File (ext_serialize X g')).
Proof.
  intros Hfreeze Hopt.
  destruct (freeze_graph_run X w saved_model_dir) as (args & Hargs & Hrun).
  destruct (ext_freeze_graph X _ args) as [content | e] eqn:Hcontent;
    rewrite Hrun in Hfreeze; [| done].
  injection Hfreeze as <-.
  assert (fs {| fs := <[freezed_filepath saved_model_dir := File content]> (fs w);
                log := log w ++ [EvFreezeGraph args;
                                 EvPrint "SavedModel graph freezed!" []] |}
            !! freezed_filepath saved_model_dir = Some (File content)) as Hfrozen
    by apply lookup_insert_eq.
  set (w1 := {| fs := _; log := _ |}) in *.
  unfold optimize_cell in *.
  pose proof (optimize_graph_run X w1 saved_model_dir "freezed_model.pb" transforms) as Hrun'.
  cbv zeta in Hrun'. fold (freezed_filepath saved_model_dir) in Hrun'.
  fold (optimised_filepath saved_model_dir) in Hrun'.
  destruct (ext_get_graph_def_from_file X (fs w1) (freezed_filepath saved_model_dir))
    as [g | e]; [| by rewrite Hrun' in Hopt].
  destruct (ext_TransformGraph X _ g [] ["softmax/Softmax"] transforms) as [g' | e] eqn:Hg';
    [| by rewrite Hrun' in Hopt].
  exists args, content, g, g'.
  split; [done |]. split; [done |]. split; [done |]. split; [done |].
  rewrite (new_events_app _ _ _ (f_equal (fun r => log r.2) Hrun')).
  rewrite Hrun' in Hopt. injection Hopt as <-. simpl.
  split; [done |]. split; [exact Hg' |]. split; [| apply lookup_insert_eq].
  rewrite lookup_insert_ne by (intros H; by apply (graph_files_differ saved_model_dir)).
  by apply make_dirs_keeps.
Qed.

Lemma freeze_then_optimize_witness :
  let w1 := (freeze_graph Demo.ext "/m" Demo.frozen).2 in
  let w2 := (optimize_cell Demo.ext "/m" w1).2 in
  fs w2 !! "/m/freezed_model.pb" = Some (File "frozen")
  /\ fs w2 !! "/m/optimised_model.pb" = Some (File "frozen;softmax/Softmax;").
Proof.
  intros w1 w2.
  destruct (freeze_then_optimize Demo.ext Demo.frozen w1 w2 "/m" eq_refl eq_refl)
    as (args & content & g & g' & _ & Hcontent & _ & Hg & _ & Hg' & Hfrozen & Hoptimised).
  injection Hcontent as <-. injection Hg as <-. injection Hg' as <-.
  split; [exact Hfrozen | exact Hoptimised].
Defined.

(** ** Graphs without placeholders *)

Lemma convert_save_call (X : externals) (w : world) (path d : string)
    (g : graph_def) (inputs : gmap string string) :
  ext_get_graph_def_from_file X (fs (after_guard d w)) path = Ok g ->
  ext_import_graph_def X g = Ok tt ->
  placeholder_inputs X g g ∅ = Ok inputs ->
  ext_has_tensor X g "softmax/Softmax:0" = true ->
  save_calls (new_events (convert_graph_def_to_saved_model X path d) w) =
    [(d, inputs, {["softmax" := "softmax/Softmax:0"]})].
Proof.
  intros Hread Himport Hinputs Hout.
  destruct (after_guard_new_events d w) as (guard & Hguard & _ & _).
  assert (save_calls guard = []) as Hnone.
  { unfold after_guard in Hguard.
    destruct (FS.exists_ d (fs w)); simpl in Hguard;
      apply app_inv_head in Hguard as <-; reflexivity. }
  unfold new_events. rewrite convert_graph_def_to_saved_model_run.
  unfold convert_after_guard. rewrite Hread, Himport, Hinputs.
  unfold get_tensor_by_name. rewrite Hout.
  destruct (ext_simple_save X _ d inputs _) as [tree | e]; simpl;
    rewrite Hguard, <- app_assoc, drop_app_length;
    unfold save_calls in *; rewrite omap_app, Hnone; reflexivity.
Qed.

Lemma placeholder_inputs_none (X : externals) (g nodes : graph_def) (d : gmap string string) :
  Forall (fun node => node_op node <> "Placeholder") nodes ->
  placeholder_inputs X g nodes d = Ok d.
Proof.
  induction 1 as [| node nodes Hop _ IH]; simpl; [done |].
  by rewrite bool_decide_eq_false_2.
Qed.

(** X18: the conversion does not insist on the model having an input.  For
    a graph with no node of type [Placeholder] the export call is made all
    the same, with an empty inputs map, and the conversion ends as that
    call ends: when the exporter rejects the empty inputs, as
    [simple_save] does, its exception is the conversion's, raised after
    the guard has run, so that an existing target is deleted and nothing
    is written in its place. *)
Theorem convert_without_placeholders
    (X : externals) (w : world) (path d : string) (g : graph_def) :
  ext_get_graph_def_from_file X (fs (after_guard d w)) path = Ok g ->
  ext_import_graph_def X g = Ok tt ->
  Forall (fun node => node_op node <> "Placeholder") g ->
  ext_has_tensor X g "softmax/Softmax:0" = true ->
  let outputs : gmap string string := {["softmax" := "softmax/Softmax:0"]} in
  let call := World (fs (after_guard d w))
                (log (after_guard d w) ++ [EvGetGraphDefFromFile path;
                                           EvSimpleSave d ∅ outputs]) in
  save_calls (new_events (convert_graph_def_to_saved_model X path d) w) = [(d, ∅, outputs)]
  /\ (forall e,
        ext_simple_save X call d ∅ outputs = Raise e ->
        convert_graph_def_to_saved_model X path d w = (Raise e, call))
  /\ (forall tree,
        ext_simple_save X call d ∅ outputs = Ok tree ->
        (convert_graph_def_to_saved_model X path d w).1 = Ok tt).
Proof.
  intros Hread Himport Hnone Hout outputs call.
  pose proof (placeholder_inputs_none X g g ∅ Hnone) as Hinputs.
  split; [| split].
  - by apply (convert_save_call X w path d g ∅ Hread Himport).
  - intros e Hsave. rewrite convert_graph_def_to_saved_model_run.
    unfold convert_after_guard. rewrite Hread, Himport, Hinputs.
    unfold get_tensor_by_name. rewrite Hout. fold outputs. fold call. by rewrite Hsave.
  - intros tree Hsave. rewrite convert_graph_def_to_saved_model_run.
    unfold convert_after_guard. rewrite Hread, Himport, Hinputs.
    unfold get_tensor_by_name. rewrite Hout. fold outputs. fold call. by rewrite Hsave.
Qed.

Lemma convert_without_placeholders_witness :
  let run := convert_graph_def_to_saved_model Edge.ext_no_placeholder
               "/m/freezed_model.pb" "/serving/mnist/2" Edge.converted_before in
  run.1 = Raise (ValueError "Prediction inputs cannot be None or empty.")
  /\ save_calls (log run.2) = [("/serving/mnist/2", ∅, {["softmax" := "softmax/Softmax:0"]})]
  /\ fs run.2 !! "/serving/mnist/2/saved_model.pb" = None.
Proof.
  intros run.
  destruct (convert_without_placeholders Edge.ext_no_placeholder Edge.converted_before
              "/m/freezed_model.pb" "/serving/mnist/2"
              [NodeDef "softmax/Softmax" "Softmax" ""])
    as (_ & Hraise & _).
  - reflexivity.
  - reflexivity.
  - repeat constructor. discriminate.
  - reflexivity.
  - specialize (Hraise (ValueError "Prediction inputs cannot be None or empty.") eq_refl).
    unfold run. rewrite Hraise. split; [reflexivity |]. split; reflexivity.
Defined.

(** ** The model and the estimator *)

(** The layers one pass of the convolution loop adds. *)
Lemma conv_blocks_closed (n i : nat) (p : hparams) (t : list layer) :
  conv_blocks i n p t =
    t ++ flat_map (fun k => [ Conv2D 3 (init_filters p * 2 ^ Z.of_nat k)%Z 1 "SAME" "relu";
                              MaxPool2D 2 2 "SAME";
                              BatchNormalization ]) (seq i n).
Proof.
  revert i t. induction n as [| n IH]; intros i t; simpl.
  - by rewrite app_nil_r.
  - rewrite IH. by rewrite <- !app_assoc.
Qed.

Lemma dense_blocks_closed (units : list Z) (p : hparams) (t : list layer) :
  dense_blocks units p t =
    t ++ flat_map (fun u => [Dense u (Some "relu") None; Dropout (dropout p)]) units.
Proof.
  revert t. induction units as [| u units IH]; intros t; simpl.
  - by rewrite app_nil_r.
  - rewrite IH. by rewrite <- !app_assoc.
Qed.

Lemma conv_block_lookup (c : Z) (n i k : nat) :
  (k < n)%nat ->
  flat_map (fun k => [ Conv2D 3 (c * 2 ^ Z.of_nat k)%Z 1 "SAME" "relu";
                       MaxPool2D 2 2 "SAME";
                       BatchNormalization ]) (seq i n) !! (3 * k)%nat
    = Some (Conv2D 3 (c * 2 ^ Z.of_nat (i + k))%Z 1 "SAME" "relu").
Proof.
  revert i k. induction n as [| n IH]; intros i k Hk; [lia |].
  destruct k as [| k].
  - simpl. by rewrite Nat.add_0_r.
  - replace (3 * S k)%nat with (S (S (S (3 * k)))) by lia.
    cbn -[Nat.mul Z.pow Z.of_nat Z.mul].
    rewrite IH by lia. do 4 f_equal. lia.
Qed.

Lemma keras_model_fn_closed (p : hparams) :
  keras_model_fn p =
    [Input [28; 28]%Z "input_image"; Reshape [28; 28; 1]%Z "reshape"]
      ++ flat_map (fun k => [ Conv2D 3 (init_filters p * 2 ^ Z.of_nat k)%Z 1 "SAME" "relu";
                              MaxPool2D 2 2 "SAME";
                              BatchNormalization ])
           (seq 0 (Z.to_nat (num_conv_layers p)))
      ++ [Flatten "flatten"]
      ++ flat_map (fun u => [Dense u (Some "relu") None; Dropout (dropout p)])
           (hidden_units p)
      ++ [Dense 10 None (Some "logits"); Activation "softmax" "softmax"].
Proof.
  unfold keras_model_fn. cbv zeta.
  rewrite dense_blocks_closed, conv_blocks_closed.
  rewrite <- !app_assoc. reflexivity.
Qed.

(** X19: for hyper-parameters that the layers accept (a number of
    convolutional layers that is not negative, positive filter and unit
    counts, a dropout rate in [0, 1)), the network [keras_model_fn] builds
    is the input and reshape layers, one block of convolution, pooling and
    batch normalisation per convolutional layer, the flatten layer, one
    dense layer with dropout per entry of [hidden_units], and the
    [NUM_CLASSES]-way softmax head.  The [k]-th convolution has
    [init_filters * 2^k] filters, so the filters double from block to
    block, and the network has [5 + 3 * num_conv_layers + 2 * len(hidden_units)]
    layers. *)
Theorem keras_model_fn_architecture (p : hparams) :
  (0 <= num_conv_layers p)%Z ->
  (0 < init_filters p)%Z ->
  Forall (fun u => 0 < u)%Z (hidden_units p) ->
  (0 <= dropout p)%Q /\ (dropout p < 1)%Q ->
  keras_model_fn p =
    [Input [28; 28]%Z "input_image"; Reshape [28; 28; 1]%Z "reshape"]
      ++ flat_map (fun k => [ Conv2D 3 (init_filters p * 2 ^ Z.of_nat k)%Z 1 "SAME" "relu";
                              MaxPool2D 2 2 "SAME";
                              BatchNormalization ])
           (seq 0 (Z.to_nat (num_conv_layers p)))
      ++ [Flatten "flatten"]
      ++ flat_map (fun u => [Dense u (Some "relu") None; Dropout (dropout p)])
           (hidden_units p)
      ++ [Dense 10 None (Some "logits"); Activation "softmax" "softmax"]
  /\ Z.of_nat (length (keras_model_fn p))
     = (5 + 3 * num_conv_layers p + 2 * Z.of_nat (length (hidden_units p)))%Z
  /\ forall k, (0 <= k < num_conv_layers p)%Z ->
       keras_model_fn p !! Z.to_nat (2 + 3 * k)
         = Some (Conv2D 3 (init_filters p * 2 ^ k)%Z 1 "SAME" "relu").
Proof.
  intros Hn _ _ _.
  pose proof (keras_model_fn_closed p) as Hclosed.
  split; [exact Hclosed |]. split.
  - rewrite Hclosed. rewrite !length_app.
    rewrite (flat_map_constant_length (c := 3)), (flat_map_constant_length (c := 2))
      by done.
    rewrite length_seq. simpl. lia.
  - intros k Hk. rewrite Hclosed.
    replace (Z.to_nat (2 + 3 * k)) with (2 + 3 * Z.to_nat k)%nat by lia.
    rewrite lookup_app_r by (simpl; lia).
    match goal with
    | |- context [(?a - length ?l)%nat] =>
        replace (a - length l)%nat with (3 * Z.to_nat k)%nat by (simpl; lia)
    end.
    rewrite lookup_app_l.
    + rewrite conv_block_lookup by lia. simpl. by rewrite Z2Nat.id by lia.
    + rewrite (flat_map_constant_length (c := 3)) by done. rewrite length_seq. lia.
Qed.

Lemma keras_model_fn_architecture_witness :
  Z.of_nat (length (keras_model_fn params)) = 18%Z
  /\ keras_model_fn params !! 8%nat = Some (Conv2D 3 256 1 "SAME" "relu").
Proof.
  destruct (keras_model_fn_architecture params) as (_ & Hlen & Hconv).
  - vm_compute. discriminate.
  - reflexivity.
  - repeat constructor.
  - split; vm_compute; [discriminate | reflexivity].
  - split; [exact Hlen |]. apply (Hconv 2%Z). vm_compute. split; [discriminate | reflexivity].
Defined.

(** X20: [create_estimator] depends on the hyper-parameters only through
    the architecture ([num_conv_layers], [init_filters], [hidden_units] and
    [dropout]).  The learning rate is not used: the [Adam] object built
    from it is dropped, and [compile] is given the optimizer name ["adam"]
    whatever [learning_rate] is. *)
Theorem create_estimator_ignores_learning_rate
    (p p' : hparams) (rc : run_config) (w : world) :
  num_conv_layers p = num_conv_layers p' ->
  init_filters p = init_filters p' ->
  hidden_units p = hidden_units p' ->
  dropout p = dropout p' ->
  create_estimator p rc w = create_estimator p' rc w
  /\ exists e w', create_estimator p rc w = (Ok e, w')
                  /\ compile_optimizer e = OptimizerName "adam".
Proof.
  intros Hn Hf Hu Hd.
  assert (keras_model_fn p = keras_model_fn p') as Hmodel.
  { rewrite (keras_model_fn_closed p), (keras_model_fn_closed p').
    by rewrite Hn, Hf, Hu, Hd. }
  unfold create_estimator. rewrite Hmodel. split; [done |].
  eexists _, _. split; [reflexivity | done].
Qed.

Lemma create_estimator_ignores_learning_rate_witness :
  create_estimator params (RunConfig 19830610 1000 3 model_dir) Demo.empty
    = create_estimator
        {| batch_size := 100; hidden_units := [512; 512]%Z; num_conv_layers := 3;
           init_filters := 64; dropout := 2 # 10; max_training_steps := 50;
           eval_throttle_secs := 10; learning_rate := 5 # 10; debug := true |}
        (RunConfig 19830610 1000 3 model_dir) Demo.empty
  /\ exists e w',
       create_estimator params (RunConfig 19830610 1000 3 model_dir) Demo.empty = (Ok e, w')
       /\ compile_optimizer e = OptimizerName "adam".
Proof.
  apply (create_estimator_ignores_learning_rate params
           {| batch_size := 100; hidden_units := [512; 512]%Z; num_conv_layers := 3;
              init_filters := 64; dropout := 2 # 10; max_training_steps := 50;
              eval_throttle_secs := 10; learning_rate := 5 # 10; debug := true |}
           (RunConfig 19830610 1000 3 model_dir) Demo.empty); reflexivity.
Defined.

(** ** The training directory *)






(** ** Choosing the exported model *)

Lemma filter_first (P : string -> bool) (l : list string) :
  match List.filter P l with
  | f :: _ =>
      exists skipped rest,
        l = skipped ++ f :: rest /\ P f = true /\ Forall (fun x => P x = false) skipped
  | [] => Forall (fun x => P x = false) l
  end.
Proof.
  induction l as [| x l IH]; simpl; [constructor |].
  destruct (P x) eqn:Hx.
  - exists [], l. by repeat split.
  - destruct (List.filter P l) as [| f fs'].
    + by constructor.
    + destruct IH as (skipped & rest & -> & Hf & Hskipped).
      exists (x :: skipped), rest. repeat split; [done |]. by constructor.
Qed.

Lemma isdigit_relative (X : externals) (f : string) :
  isdigit X f = true -> Py.startswith_sep f = false.
Proof.
  destruct f as [| c f]; [done |]. simpl. intros Hd.
  apply andb_true_iff in Hd as [Hd _]. apply andb_true_iff in Hd as [Hc _].
  apply bool_decide_eq_false. intros ->. discriminate Hc.
Qed.

(** X22: the model directory the notebook works on is the first entry of
    the export directory's listing whose name [str.isdigit] accepts, below
    [export_dir]; entries of other names (such as the exporter's temporary
    directories) are skipped.  When the listing has no such entry, for an
    empty export directory in particular, the cell raises [IndexError]. *)
Theorem saved_model_dir_first_digit_entry (X : externals) (listdir : list string) :
  match saved_model_dir_of X listdir with
  | Ok dir =>
      exists skipped f rest,
        listdir = skipped ++ f :: rest
        /\ isdigit X f = true
        /\ Forall (fun x => isdigit X x = false) skipped
        /\ dir = "/saved_models/mnist/export/" +:+ f
  | Raise e =>
      e = IndexError "list index out of range"
      /\ Forall (fun x => isdigit X x = false) listdir
  end.
Proof.
  unfold saved_model_dir_of. pose proof (filter_first (isdigit X) listdir) as Hfirst.
  destruct (List.filter (isdigit X) listdir) as [| f fs']; [done |].
  destruct Hfirst as (skipped & rest & -> & Hf & Hskipped).
  exists skipped, f, rest. repeat split; try done.
  rewrite os_path_join_relative by (by eapply isdigit_relative). reflexivity.
Qed.

(** X23: the Python cells and the bash copy cell agree on the exported
    model when the last name [ls] prints for the export directory is a
    name [str.isdigit] accepts, [os.listdir] returns it as well, and
    [os.listdir] returns no other name that [str.isdigit] accepts, as after
    one run of the export cell: whatever the order of [os.listdir] and its
    other entries, the directory the copy cell copies from is then the
    directory that is frozen and optimised afterwards. *)
Theorem copy_and_freeze_use_same_export
    (X : externals) (w : world) (listdir : list string) (f : string) :
  last (ext_ls X (World (fs w) (log w ++ [EvLs "/saved_models/mnist/export/"]))
          "/saved_models/mnist/export/") = Some f ->
  f ∈ listdir ->
  isdigit X f = true ->
  (forall x, x ∈ listdir -> isdigit X x = true -> x = f) ->
  exists dir,
    saved_model_dir_of X listdir = Ok dir
    /\ new_events (copy_to_serving_cell X) w =
         [ EvLs "/saved_models/mnist/export/";
           EvMkdirP "/serving/mnist/1";
           EvCpR dir "/serving/mnist/1" ].
Proof.
  intros Hls Hin Hf Honly.
  exists ("/saved_models/mnist/export/" +:+ f). split.
  - pose proof (saved_model_dir_first_digit_entry X listdir) as Hfirst.
    destruct (saved_model_dir_of X listdir) as [dir | e].
    + destruct Hfirst as (skipped & f' & rest & Hlist & Hf' & _ & ->).
      rewrite (Honly f'); [done | | done].
      rewrite Hlist. apply elem_of_app. right. by left.
    + destruct Hfirst as [_ Hnone].
      rewrite Forall_forall in Hnone. apply Hnone in Hin. congruence.
  - rewrite copy_to_serving_cell_events. by rewrite Hls.
Qed.

Lemma copy_and_freeze_use_same_export_witness :
  exists dir,
    saved_model_dir_of Demo.ext [".ipynb_checkpoints"; "1554000000"]
      = Ok dir
    /\ new_events (copy_to_serving_cell Demo.ext) Demo.empty =
         [ EvLs "/saved_models/mnist/export/";
           EvMkdirP "/serving/mnist/1";
           EvCpR dir "/serving/mnist/1" ].
Proof.
  apply (copy_and_freeze_use_same_export Demo.ext Demo.empty
           [".ipynb_checkpoints"; "1554000000"] "1554000000").
  - reflexivity.
  - right. by left.
  - reflexivity.
  - intros x Hx Hd.
    repeat (apply elem_of_cons in Hx as [-> | Hx]; [done || discriminate Hd |]).
    by apply elem_of_nil in Hx.
Defined.
